(** * kart-io/logger: configuration resolution, engine adapters, factory
      and OTLP client, embedded shallowly and checked against the
      natural-language specification.

    Go values are modelled as follows.
    - [string] is a byte string ([String.string]).
    - a pointer that may be nil (to a bool, an OTLPOption, a LoggerProvider)
      is an [option].
    - [time.Duration] is its int64 nanosecond count, a [Z].
    - [map[string]T] is a [gmap string T].
    - a method that mutates its receiver returns the new receiver.
    - [(T, error)] results are the [result] type below. *)

From Stdlib Require Import ZArith Ascii String List Bool Lia.
From stdpp Require Import base option strings gmap list pretty.

Local Open Scope string_scope.
Local Open Scope Z_scope.

(** ** Errors and fallible results *)

(** Go [error] values that the modelled code builds.  [ErrWrap p e] is
    [fmt.Errorf(p + ": %w", e)]. *)
Inductive error : Type :=
| ErrMsg (msg : string)
| ErrWrap (prefix : string) (cause : error).

Inductive result (A : Type) : Type :=
| Ok (a : A)
| Err (e : error).
Arguments Ok {A} a.
Arguments Err {A} e.

Definition is_err {A} (r : result A) : bool :=
  match r with Ok _ => false | Err _ => true end.

Definition is_ok {A} (r : result A) : bool := negb (is_err r).

Definition bind_result {A B} (r : result A) (k : A -> result B) : result B :=
  match r with Ok a => k a | Err e => Err e end.

Notation "x <-? r ;; k" := (bind_result r (fun x => k))
  (at level 100, r at next level, right associativity).

(** ** Package core: severity levels *)

Module Core.

(** Modelled from the spec: core/level.go is missing; the data model
    gives Level as an enumerated severity with the total order
    debug < info < warn < error < fatal. *)
Inductive Level : Type :=
| DebugLevel | InfoLevel | WarnLevel | ErrorLevel | FatalLevel.

Definition rank (l : Level) : Z :=
  match l with
  | DebugLevel => 0 | InfoLevel => 1 | WarnLevel => 2
  | ErrorLevel => 3 | FatalLevel => 4
  end.

Definition level_ltb (a b : Level) : bool := rank a <? rank b.
Definition level_leb (a b : Level) : bool := rank a <=? rank b.

Definition ascii_lower (c : ascii) : ascii :=
  let n := nat_of_ascii c in
  if ((65 <=? n) && (n <=? 90))%nat then ascii_of_nat (n + 32) else c.

Fixpoint to_lower (s : string) : string :=
  match s with
  | EmptyString => EmptyString
  | String c r => String (ascii_lower c) (to_lower r)
  end.

(** The five recognised level names, in canonical lowercase form. *)
Definition level_names : list (string * Level) :=
  [("debug", DebugLevel); ("info", InfoLevel); ("warn", WarnLevel);
   ("error", ErrorLevel); ("fatal", FatalLevel)].

Fixpoint assoc_level (s : string) (tbl : list (string * Level)) : option Level :=
  match tbl with
  | [] => None
  | (n, l) :: r => if String.eqb s n then Some l else assoc_level s r
  end.

(** Modelled from the spec: core.ParseLevel is missing; parse fails when
    the string matches none of the five recognised names, compared
    without regard to case. *)
Definition ParseLevel (s : string) : result Level :=
  match assoc_level (to_lower s) level_names with
  | Some l => Ok l
  | None => Err (ErrMsg ("invalid level: " ++ s))
  end.

(** Modelled from the spec: format gives the canonical lowercase name. *)
Definition String (l : Level) : string :=
  match l with
  | DebugLevel => "debug" | InfoLevel => "info" | WarnLevel => "warn"
  | ErrorLevel => "error" | FatalLevel => "fatal"
  end.

End Core.

(** ** Package option: LogOption and its resolver (option/option.go) *)

Module OptionPkg.

Record OTLPOption : Type := mkOTLPOption {
  Enabled  : option bool;
  Endpoint : string;
  Protocol : string;
  Timeout  : Z;
  Headers  : gmap string string;
  Insecure : bool
}.

Record LogOption : Type := mkLogOption {
  Engine            : string;
  Level             : string;
  Format            : string;
  OutputPaths       : list string;
  OTLPEndpoint      : string;
  OTLP              : option OTLPOption;
  Development       : bool;
  DisableCaller     : bool;
  DisableStacktrace : bool
}.

(** [time.Second] in nanoseconds. *)
Definition Second : Z := 1000000000.

(** [&OTLPOption{}]: every field at its zero value. *)
Definition zeroOTLPOption : OTLPOption :=
  mkOTLPOption None "" "" 0 ∅ false.

Definition set_Enabled (b : option bool) (o : OTLPOption) : OTLPOption :=
  mkOTLPOption b (Endpoint o) (Protocol o) (Timeout o) (Headers o) (Insecure o).
Definition set_Endpoint (e : string) (o : OTLPOption) : OTLPOption :=
  mkOTLPOption (Enabled o) e (Protocol o) (Timeout o) (Headers o) (Insecure o).
Definition set_Protocol (p : string) (o : OTLPOption) : OTLPOption :=
  mkOTLPOption (Enabled o) (Endpoint o) p (Timeout o) (Headers o) (Insecure o).
Definition set_Timeout (t : Z) (o : OTLPOption) : OTLPOption :=
  mkOTLPOption (Enabled o) (Endpoint o) (Protocol o) t (Headers o) (Insecure o).

Definition set_OTLP (o : option OTLPOption) (opt : LogOption) : LogOption :=
  mkLogOption (Engine opt) (Level opt) (Format opt) (OutputPaths opt)
    (OTLPEndpoint opt) o (Development opt) (DisableCaller opt)
    (DisableStacktrace opt).
Definition set_Engine (e : string) (opt : LogOption) : LogOption :=
  mkLogOption e (Level opt) (Format opt) (OutputPaths opt)
    (OTLPEndpoint opt) (OTLP opt) (Development opt) (DisableCaller opt)
    (DisableStacktrace opt).

Definition DefaultLogOption : LogOption :=
  mkLogOption "slog" "INFO" "json" ["stdout"] ""
    (Some (mkOTLPOption None "" "grpc" (10 * Second) ∅ true))
    false false false.

(** The block "Apply defaults for enabled OTLP" at the end of
    resolveOTLPConfig. *)
Definition applyEnabledDefaults (o : OTLPOption) : OTLPOption :=
  match Enabled o with
  | Some true =>
      let o := if String.eqb (Protocol o) "" then set_Protocol "grpc" o else o in
      if Timeout o =? 0 then set_Timeout (10 * Second) o else o
  | _ => o
  end.

(** LogOption.resolveOTLPConfig.  The nested record is allocated when
    nil; the early [return] of the explicit-disable case leaves it as it
    is and skips the defaults. *)
Definition resolveOTLPConfig (opt : LogOption) : LogOption :=
  let o := match OTLP opt with None => zeroOTLPOption | Some o => o end in
  if negb (String.eqb (OTLPEndpoint opt) "") then
    match Enabled o with
    | Some false => set_OTLP (Some o) opt
    | en =>
        let o := match en with None => set_Enabled (Some true) o | _ => o end in
        let o := set_Endpoint (OTLPEndpoint opt) o in
        set_OTLP (Some (applyEnabledDefaults o)) opt
    end
  else
    let o :=
      match Enabled o with
      | None => if negb (String.eqb (Endpoint o) "")
                then set_Enabled (Some true) o else o
      | _ => o
      end in
    set_OTLP (Some (applyEnabledDefaults o)) opt.

(** LogOption.IsOTLPEnabled *)
Definition IsOTLPEnabled (opt : LogOption) : bool :=
  match OTLP opt with
  | None => false
  | Some o =>
      match Enabled o with
      | Some true => negb (String.eqb (Endpoint o) "")
      | _ => false
      end
  end.

(** OTLPOption.IsEnabled, on a possibly nil receiver. *)
Definition IsEnabled (o : option OTLPOption) : bool :=
  match o with
  | None => false
  | Some o =>
      match Enabled o with
      | Some true => negb (String.eqb (Endpoint o) "")
      | _ => false
      end
  end.

Definition engine_known (e : string) : bool :=
  String.eqb e "zap" || String.eqb e "slog".

(** LogOption.Validate: the receiver after the call and the returned
    error ([None] is nil).  On a level error nothing has been written to
    the receiver yet. *)
Definition Validate (opt : LogOption) : LogOption * option error :=
  match Core.ParseLevel (Level opt) with
  | Err e => (opt, Some e)
  | Ok _ =>
      let opt := resolveOTLPConfig opt in
      let opt := if negb (engine_known (Engine opt))
                 then set_Engine "slog" opt else opt in
      (opt, None)
  end.

End OptionPkg.

(** ** Package config: Config and its resolver *)

Module ConfigPkg.

Record OTLPConfig : Type := mkOTLPConfig {
  Enabled  : option bool;
  Endpoint : string;
  Protocol : string;
  Timeout  : Z;
  Headers  : gmap string string
}.

Record Config : Type := mkConfig {
  Engine            : string;
  Level             : string;
  Format            : string;
  OutputPaths       : list string;
  OTLPEndpoint      : string;
  OTLP              : option OTLPConfig;
  Development       : bool;
  DisableCaller     : bool;
  DisableStacktrace : bool
}.

Definition zeroOTLPConfig : OTLPConfig := mkOTLPConfig None "" "" 0 ∅.

Definition set_Enabled (b : option bool) (o : OTLPConfig) : OTLPConfig :=
  mkOTLPConfig b (Endpoint o) (Protocol o) (Timeout o) (Headers o).
Definition set_Endpoint (e : string) (o : OTLPConfig) : OTLPConfig :=
  mkOTLPConfig (Enabled o) e (Protocol o) (Timeout o) (Headers o).
Definition set_Protocol (p : string) (o : OTLPConfig) : OTLPConfig :=
  mkOTLPConfig (Enabled o) (Endpoint o) p (Timeout o) (Headers o).
Definition set_Timeout (t : Z) (o : OTLPConfig) : OTLPConfig :=
  mkOTLPConfig (Enabled o) (Endpoint o) (Protocol o) t (Headers o).

Definition set_OTLP (o : option OTLPConfig) (c : Config) : Config :=
  mkConfig (Engine c) (Level c) (Format c) (OutputPaths c)
    (OTLPEndpoint c) o (Development c) (DisableCaller c)
    (DisableStacktrace c).
Definition set_Engine (e : string) (c : Config) : Config :=
  mkConfig e (Level c) (Format c) (OutputPaths c)
    (OTLPEndpoint c) (OTLP c) (Development c) (DisableCaller c)
    (DisableStacktrace c).

Definition applyEnabledDefaults (o : OTLPConfig) : OTLPConfig :=
  match Enabled o with
  | Some true =>
      let o := if String.eqb (Protocol o) "" then set_Protocol "grpc" o else o in
      if Timeout o =? 0 then set_Timeout (10 * OptionPkg.Second) o else o
  | _ => o
  end.

(** Config.resolveOTLPConfig.  Unlike the LogOption resolver, the
    flattened endpoint is copied only into an empty nested endpoint
    ("Use flattened endpoint if nested endpoint is not set"). *)
Definition resolveOTLPConfig (c : Config) : Config :=
  let o := match OTLP c with None => zeroOTLPConfig | Some o => o end in
  if negb (String.eqb (OTLPEndpoint c) "") then
    match Enabled o with
    | Some false => set_OTLP (Some o) c
    | en =>
        let o := match en with None => set_Enabled (Some true) o | _ => o end in
        let o := if String.eqb (Endpoint o) ""
                 then set_Endpoint (OTLPEndpoint c) o else o in
        set_OTLP (Some (applyEnabledDefaults o)) c
    end
  else
    let o :=
      match Enabled o with
      | None => if negb (String.eqb (Endpoint o) "")
                then set_Enabled (Some true) o else o
      | _ => o
      end in
    set_OTLP (Some (applyEnabledDefaults o)) c.

(** Config.IsOTLPEnabled *)
Definition IsOTLPEnabled (c : Config) : bool :=
  match OTLP c with
  | None => false
  | Some o =>
      match Enabled o with
      | Some true => negb (String.eqb (Endpoint o) "")
      | _ => false
      end
  end.

(** Config.Validate *)
Definition Validate (c : Config) : Config * option error :=
  match Core.ParseLevel (Level c) with
  | Err e => (c, Some e)
  | Ok _ =>
      let c := resolveOTLPConfig c in
      let c := if negb (OptionPkg.engine_known (Engine c))
               then set_Engine "slog" c else c in
      (c, None)
  end.

End ConfigPkg.

(** ** Dynamic values, field names and the effect trace *)

(** The dynamic types of [interface{}] arguments that the model
    distinguishes. *)
Inductive any : Type :=
| ANil
| AString (s : string)
| AInt (n : Z)
| ABool (b : bool).

(** anyToString, identical in both engine packages on these types
    ([slog.AnyValue(v).String()] and [fmt.Sprintf("%v", v)] agree on
    integers and booleans). *)
Definition anyToString (v : any) : string :=
  match v with
  | ANil => "<nil>"
  | AString s => s
  | AInt n => pretty n
  | ABool true => "true"
  | ABool false => "false"
  end.

Module Fields.

(** fields.FieldMapper: the package is missing, so the two alias tables
    that [MapCoreFields] and [MapTracingFields] return are carried as
    data. *)
Record FieldMapper : Type := mkFieldMapper {
  MapCoreFields    : gmap string string;
  MapTracingFields : gmap string string
}.

(** Modelled from the spec: the constants of the missing fields package
    name the standardized output keys [caller] and [stacktrace]. *)
Definition CallerField : string := "caller".
Definition StacktraceField : string := "stacktrace".

(** getStandardFieldName, written three times in the source (SlogLogger,
    standardizedHandler, ZapLogger) with the same body. *)
Definition getStandardFieldName (m : FieldMapper) (fieldName : string) : string :=
  match MapCoreFields m !! fieldName with
  | Some mapped => mapped
  | None =>
      match MapTracingFields m !! fieldName with
      | Some mapped => mapped
      | None => fieldName
      end
  end.

End Fields.

(** What a log call does to the outside world, in program order.
    Diagnostic [fmt.Printf] output is left out of the trace. *)
Inductive event : Type :=
| EvWrite (engine : string) (lvl : string) (msg : string)
          (attrs : list (string * any))
| EvSendLogRecord (lvl : Core.Level) (msg : string)
                  (attributes : gmap string any)
| EvGRPCExport (endpoint : string)
| EvHTTPPost (url : string) (headers : list (string * string))
| EvExit (code : Z).

Definition is_export (e : event) : bool :=
  match e with EvSendLogRecord _ _ _ => true | _ => false end.

Definition is_write (e : event) : bool :=
  match e with EvWrite _ _ _ _ => true | _ => false end.

(** The number of calls into the Export Client in a trace. *)
Definition export_calls (t : list event) : nat :=
  List.length (List.filter is_export t).

(** ** Package otlp: provider and client (otlp/provider.go) *)

Module Otlp.

(** The parts of the network that the client talks to. *)
Record Net : Type := mkNet {
  (** [grpc.NewClient(endpoint, ...)]: nil or the error. *)
  grpcNewClient : string -> option error;
  (** [grpcClient.Export]: nil or the error. *)
  grpcExport : option error;
  (** [proto.Marshal(req)] fails. *)
  marshalFails : bool;
  (** [http.NewRequestWithContext] rejects the URL. *)
  newRequestFails : string -> bool;
  (** [httpClient.Do]: the response status or the transport error. *)
  httpDo : string -> result Z
}.

Record OTLPClient : Type := mkOTLPClient {
  endpoint : string;
  protocol : string;
  timeout  : Z;
  headers  : gmap string string;
  insecure : bool;
  (** [grpcClient != nil] *)
  grpcClient : bool
}.

Record LoggerProvider : Type := mkLoggerProvider {
  client   : OTLPClient;
  resource : list (string * string)
}.

(** NewOTLPClient *)
Definition NewOTLPClient (net : Net) (opt : OptionPkg.OTLPOption)
  : result OTLPClient :=
  let c := mkOTLPClient (OptionPkg.Endpoint opt) (OptionPkg.Protocol opt)
             (OptionPkg.Timeout opt) (OptionPkg.Headers opt)
             (OptionPkg.Insecure opt) false in
  if String.eqb (OptionPkg.Protocol opt) "grpc" then
    match grpcNewClient net (OptionPkg.Endpoint opt) with
    | Some e => Err (ErrWrap "failed to create gRPC connection" e)
    | None =>
        Ok (mkOTLPClient (endpoint c) (protocol c) (timeout c) (headers c)
              (insecure c) true)
    end
  else Ok c.

(** NewLoggerProvider *)
Definition NewLoggerProvider (net : Net) (opt : option OptionPkg.OTLPOption)
  : result LoggerProvider :=
  if negb (OptionPkg.IsEnabled opt) then Err (ErrMsg "OTLP is not enabled")
  else
    match opt with
    | None => Err (ErrMsg "OTLP is not enabled")
    | Some o =>
        match NewOTLPClient net o with
        | Err e => Err (ErrWrap "failed to create OTLP client" e)
        | Ok c =>
            Ok (mkLoggerProvider c
                  [("service.name", "kart-io-logger");
                   ("service.version", "1.0.0");
                   ("job", "kart-io-logger");
                   ("instance", "localhost")])
        end
    end.

(** [strings.HasPrefix] *)
Fixpoint HasPrefix (s p : string) {struct p} : bool :=
  match p, s with
  | EmptyString, _ => true
  | String a p', String b s' => Ascii.eqb a b && HasPrefix s' p'
  | String _ _, EmptyString => false
  end.

(** The URL chosen in exportHTTP ("Build correct endpoint URL based on
    endpoint type"). *)
Definition exportHTTP_url (c : OTLPClient) : string :=
  if HasPrefix (endpoint c) "http" then endpoint c
  else "http://" ++ endpoint c ++ "/v1/logs".

(** The request headers: the two fixed ones, then the configured ones
    written over them (net/http's canonical spelling of header names is
    not modelled). *)
Definition exportHTTP_headers (c : OTLPClient) : list (string * string) :=
  map_to_list
    (headers c ∪
     ({[ "Content-Type" := "application/x-protobuf";
         "User-Agent" := "kart-io-logger/1.0.0" ]} : gmap string string)).

(** exportHTTP: the events and the returned error. *)
Definition exportHTTP (net : Net) (c : OTLPClient)
  : list event * option error :=
  if marshalFails net then
    ([], Some (ErrWrap "failed to marshal request" (ErrMsg "proto")))
  else
    let url := exportHTTP_url c in
    if newRequestFails net url then
      ([], Some (ErrWrap "failed to create HTTP request" (ErrMsg "net/http")))
    else
      let ev := [EvHTTPPost url (exportHTTP_headers c)] in
      match httpDo net url with
      | Err e => (ev, Some (ErrWrap "failed to send HTTP request" e))
      | Ok status =>
          if (status <? 200) || (300 <=? status)
          then (ev, Some (ErrMsg ("HTTP request failed with status: "
                                  ++ pretty status)))
          else (ev, None)
      end.

(** exportGRPC *)
Definition exportGRPC (net : Net) (c : OTLPClient)
  : list event * option error :=
  if negb (grpcClient c) then ([], Some (ErrMsg "gRPC client not initialized"))
  else ([EvGRPCExport (endpoint c)], grpcExport net).

(** OTLPClient.Export *)
Definition Export (net : Net) (c : OTLPClient) : list event * option error :=
  if String.eqb (protocol c) "grpc" then exportGRPC net c
  else exportHTTP net c.

(** LoggerProvider.SendLogRecord: the call itself is recorded, then
    whatever the transport does. *)
Definition SendLogRecord (net : Net) (p : LoggerProvider)
    (level : Core.Level) (message : string) (attributes : gmap string any)
  : list event * option error :=
  let '(evs, err) := Export net (client p) in
  (EvSendLogRecord level message attributes :: evs, err).

End Otlp.

(** ** The world outside the program *)

(** Everything the adapters and the factory read from the Go runtime,
    the operating system, the network and the missing fields package. *)
Record World : Type := mkWorld {
  net : Otlp.Net;
  (** [fields.NewFieldMapper()] *)
  NewFieldMapper : Fields.FieldMapper;
  (** [os.OpenFile(path, O_CREATE|O_WRONLY|O_APPEND, 0644)]: nil or the error *)
  openFile : string -> option error;
  (** [zap.Config.Build] on the encoding and the output paths *)
  zapBuild : string -> list string -> option error;
  (** the call stack passes through the package-level functions of logger.go *)
  hasGlobalCall : bool;
  (** the "dir/file.go:line" of the frame [skip] levels up, empty when
      the runtime reports none *)
  callerAt : Z -> string;
  (** the formatted stack from [skip] levels up *)
  stackFrom : Z -> string;
  (** [fmt.Sprintf] and [fmt.Sprint] *)
  Sprintf : string -> list any -> string;
  Sprint : list any -> string
}.

(** Statements in sequence, where [os.Exit] ends the program: what
    follows an exit never runs. *)
Definition is_exit (e : event) : bool :=
  match e with EvExit _ => true | _ => false end.

Definition andThen (t1 t2 : list event) : list event :=
  if existsb is_exit t1 then t1 else (t1 ++ t2)%list.

(** ** Package engines/slog: the standard-library adapter *)

Module Slog.

Import Fields.

(** [slog.Level] values. *)
Definition LevelDebug : Z := -4.
Definition LevelInfo : Z := 0.
Definition LevelWarn : Z := 4.
Definition LevelError : Z := 8.

Definition levelString (l : Z) : string :=
  if l =? LevelDebug then "DEBUG"
  else if l =? LevelInfo then "INFO"
  else if l =? LevelWarn then "WARN"
  else if l =? LevelError then "ERROR"
  else "LEVEL(" ++ pretty l ++ ")".

(** mapToSlogLevel *)
Definition mapToSlogLevel (level : Core.Level) : Z :=
  match level with
  | Core.DebugLevel => LevelDebug
  | Core.InfoLevel => LevelInfo
  | Core.WarnLevel => LevelWarn
  | Core.ErrorLevel => LevelError
  | Core.FatalLevel => LevelError
  end.

(** The [*slog.Logger] held by the adapter: a standardizedHandler around
    a JSON or text handler. *)
Record Backend : Type := mkBackend {
  (** [HandlerOptions.Level] *)
  hLevel : Z;
  (** ["json"] or ["text"] *)
  hFormat : string;
  hWriters : list string;
  (** [standardizedHandler.mapper] *)
  hMapper : FieldMapper;
  (** attributes attached through [With], already standardized *)
  hAttrs : list (string * any)
}.

Record SlogLogger : Type := mkSlogLogger {
  logger            : Backend;
  level             : Core.Level;
  mapper            : FieldMapper;
  callerSkip        : Z;
  disableStacktrace : bool;
  otlpProvider      : option Otlp.LoggerProvider
}.

(** standardizedHandler.Handle followed by the wrapped handler: the
    engine attribute first, then every attribute of the record under
    its standard name. *)
Definition Handle (h : Backend) (lvl : Z) (msg : string)
    (attrs : list (string * any)) : list event :=
  [EvWrite "slog" (levelString lvl) msg
     (hAttrs h ++ ("engine", AString "slog")
        :: List.map (fun kv => (getStandardFieldName (hMapper h) (fst kv), snd kv))
             attrs)%list].

(** [slog.Logger.Debug], [.Info], ... and their [Context] variants: the
    handler is asked whether the level is enabled before anything is
    built. *)
Definition log (h : Backend) (lvl : Z) (msg : string)
    (attrs : list (string * any)) : list event :=
  if lvl <? hLevel h then [] else Handle h lvl msg attrs.

(** standardizedHandler.WithAttrs under [slog.Logger.With]. *)
Definition backendWith (h : Backend) (attrs : list (string * any)) : Backend :=
  match attrs with
  | [] => h
  | _ =>
      mkBackend (hLevel h) (hFormat h) (hWriters h) (hMapper h)
        (hAttrs h ++
         List.map (fun kv => (getStandardFieldName (hMapper h) (fst kv), snd kv))
           attrs)%list
  end.

(** formatArgs *)
Definition formatArgs (args : list any) : string :=
  match args with
  | [] => ""
  | [a] => anyToString a
  | _ => String.concat " " (List.map anyToString args)
  end.

(** SlogLogger.convertToSlogAttrs: two arguments per round; a last key
    without a value is appended with a nil value, under its own name. *)
Fixpoint convertToSlogAttrs (m : FieldMapper) (keysAndValues : list any)
  : list (string * any) :=
  match keysAndValues with
  | [] => []
  | [k] => [(anyToString k, ANil)]
  | k :: value :: rest =>
      let key := anyToString k in
      let mappedKey := getStandardFieldName m key in
      let key := if negb (String.eqb mappedKey "") then mappedKey else key in
      (key, value) :: convertToSlogAttrs m rest
  end.

(** SlogLogger.getCaller *)
Definition getCaller (w : World) (l : SlogLogger) : string :=
  let skip := if hasGlobalCall w then 4 + callerSkip l else 3 + callerSkip l in
  callerAt w skip.

(** SlogLogger.getStacktrace *)
Definition getStacktrace (w : World) (l : SlogLogger) : string :=
  if disableStacktrace l then "" else stackFrom w (3 + callerSkip l).

(** The attribute map built by SlogLogger.sendToOTLP: the loop stops at
    a last key that has no value. *)
Fixpoint otlpAttributes (m : FieldMapper) (keysAndValues : list any)
    (attributes : gmap string any) : gmap string any :=
  match keysAndValues with
  | k :: value :: rest =>
      let standardKey := getStandardFieldName m (anyToString k) in
      otlpAttributes m rest (<[standardKey := value]> attributes)
  | _ => attributes
  end.

(** SlogLogger.sendToOTLP *)
Definition sendToOTLP (w : World) (l : SlogLogger) (lvl : Core.Level)
    (msg : string) (keysAndValues : list any) : list event :=
  match otlpProvider l with
  | None => []
  | Some p =>
      fst (Otlp.SendLogRecord (net w) p lvl msg
             (otlpAttributes (mapper l) keysAndValues ∅))
  end.

(** The caller attribute, when the runtime gives one. *)
Definition callerAttrs (w : World) (l : SlogLogger) : list (string * any) :=
  let caller := getCaller w l in
  if negb (String.eqb caller "") then [(CallerField, AString caller)] else [].

(** The stack trace attribute of the error and fatal methods. *)
Definition stackAttrs (w : World) (l : SlogLogger) : list (string * any) :=
  let stacktrace := getStacktrace w l in
  if negb (String.eqb stacktrace "") then [(StacktraceField, AString stacktrace)]
  else [].

(** *** Variadic convention *)

Definition Debug (w : World) (l : SlogLogger) (args : list any) : list event :=
  log (logger l) LevelDebug (formatArgs args) (callerAttrs w l).

Definition Info (w : World) (l : SlogLogger) (args : list any) : list event :=
  log (logger l) LevelInfo (formatArgs args) (callerAttrs w l).

Definition Warn (w : World) (l : SlogLogger) (args : list any) : list event :=
  log (logger l) LevelWarn (formatArgs args) (callerAttrs w l).

Definition Error (w : World) (l : SlogLogger) (args : list any) : list event :=
  log (logger l) LevelError (formatArgs args) (callerAttrs w l ++ stackAttrs w l)%list.

Definition Fatal (w : World) (l : SlogLogger) (args : list any) : list event :=
  andThen
    (log (logger l) LevelError (formatArgs args)
       (callerAttrs w l ++ stackAttrs w l)%list)
    [EvExit 1].

(** *** Printf convention *)

Definition Debugf (w : World) (l : SlogLogger) (template : string)
    (args : list any) : list event :=
  log (logger l) LevelDebug (Sprintf w template args) (callerAttrs w l).

Definition Infof (w : World) (l : SlogLogger) (template : string)
    (args : list any) : list event :=
  log (logger l) LevelInfo (Sprintf w template args) (callerAttrs w l).

Definition Warnf (w : World) (l : SlogLogger) (template : string)
    (args : list any) : list event :=
  log (logger l) LevelWarn (Sprintf w template args) (callerAttrs w l).

Definition Errorf (w : World) (l : SlogLogger) (template : string)
    (args : list any) : list event :=
  log (logger l) LevelError (Sprintf w template args)
    (callerAttrs w l ++ stackAttrs w l)%list.

Definition Fatalf (w : World) (l : SlogLogger) (template : string)
    (args : list any) : list event :=
  andThen
    (log (logger l) LevelError (Sprintf w template args)
       (callerAttrs w l ++ stackAttrs w l)%list)
    [EvExit 1].

(** *** Key/value convention *)

Definition Debugw (w : World) (l : SlogLogger) (msg : string)
    (keysAndValues : list any) : list event :=
  let attrs := (convertToSlogAttrs (mapper l) keysAndValues
                  ++ callerAttrs w l)%list in
  andThen (log (logger l) LevelDebug msg attrs)
    (sendToOTLP w l Core.DebugLevel msg keysAndValues).

Definition Infow (w : World) (l : SlogLogger) (msg : string)
    (keysAndValues : list any) : list event :=
  let attrs := (convertToSlogAttrs (mapper l) keysAndValues
                  ++ callerAttrs w l)%list in
  andThen (log (logger l) LevelInfo msg attrs)
    (sendToOTLP w l Core.InfoLevel msg keysAndValues).

Definition Warnw (w : World) (l : SlogLogger) (msg : string)
    (keysAndValues : list any) : list event :=
  let attrs := (convertToSlogAttrs (mapper l) keysAndValues
                  ++ callerAttrs w l)%list in
  andThen (log (logger l) LevelWarn msg attrs)
    (sendToOTLP w l Core.WarnLevel msg keysAndValues).

Definition Errorw (w : World) (l : SlogLogger) (msg : string)
    (keysAndValues : list any) : list event :=
  let attrs := (convertToSlogAttrs (mapper l) keysAndValues
                  ++ callerAttrs w l ++ stackAttrs w l)%list in
  andThen (log (logger l) LevelError msg attrs)
    (sendToOTLP w l Core.ErrorLevel msg keysAndValues).

Definition Fatalw (w : World) (l : SlogLogger) (msg : string)
    (keysAndValues : list any) : list event :=
  let attrs := (convertToSlogAttrs (mapper l) keysAndValues
                  ++ callerAttrs w l ++ stackAttrs w l)%list in
  andThen
    (andThen (log (logger l) LevelError msg attrs)
       (sendToOTLP w l Core.FatalLevel msg keysAndValues))
    [EvExit 1].

(** *** Child loggers and level *)

Definition With (l : SlogLogger) (keysAndValues : list any) : SlogLogger :=
  mkSlogLogger
    (backendWith (logger l) (convertToSlogAttrs (mapper l) keysAndValues))
    (level l) (mapper l) (callerSkip l) (disableStacktrace l) (otlpProvider l).

Definition WithCtx (l : SlogLogger) (keysAndValues : list any) : SlogLogger :=
  mkSlogLogger
    (backendWith (logger l) (convertToSlogAttrs (mapper l) keysAndValues))
    (level l) (mapper l) (callerSkip l) (disableStacktrace l) (otlpProvider l).

Definition WithCallerSkip (l : SlogLogger) (skip : Z) : SlogLogger :=
  mkSlogLogger (logger l) (level l) (mapper l) (callerSkip l + skip)
    (disableStacktrace l) (otlpProvider l).

(** SetLevel writes the field only; the handler keeps its level. *)
Definition SetLevel (l : SlogLogger) (lv : Core.Level) : SlogLogger :=
  mkSlogLogger (logger l) lv (mapper l) (callerSkip l)
    (disableStacktrace l) (otlpProvider l).

(** *** Construction *)

(** One round of the loop of createOutputWriters ([strings.ToLower] on
    ASCII letters). *)
Definition openWriter (w : World) (path : string) : result string :=
  let lp := Core.to_lower path in
  if String.eqb lp "stdout" || String.eqb lp "" then Ok "stdout"
  else if String.eqb lp "stderr" then Ok "stderr"
  else match openFile w path with
       | Some e => Err e
       | None => Ok path
       end.

Fixpoint openWriters (w : World) (paths : list string) : result (list string) :=
  match paths with
  | [] => Ok []
  | path :: rest =>
      f <-? openWriter w path ;;
      fs <-? openWriters w rest ;;
      Ok (f :: fs)
  end.

(** createOutputWriters *)
Definition createOutputWriters (w : World) (paths : list string)
  : result (list string) :=
  match paths with
  | [] => Ok ["stdout"]
  | _ => openWriters w paths
  end.

Definition handlerFormat (format : string) : string :=
  let f := Core.to_lower format in
  if String.eqb f "json" then "json"
  else if String.eqb f "console" || String.eqb f "text" then "text"
  else "json".

(** NewSlogLogger: the option after the call (Validate writes to it) and
    the logger or the error. *)
Definition NewSlogLogger (w : World) (opt : OptionPkg.LogOption)
  : OptionPkg.LogOption * result SlogLogger :=
  match OptionPkg.Validate opt with
  | (opt, Some err) => (opt, Err err)
  | (opt, None) =>
      (opt,
       lv <-? Core.ParseLevel (OptionPkg.Level opt) ;;
       provider <-?
         (if OptionPkg.IsOTLPEnabled opt then
            match Otlp.NewLoggerProvider (net w) (OptionPkg.OTLP opt) with
            | Err e => Err (ErrWrap "failed to create OTLP provider" e)
            | Ok p => Ok (Some p)
            end
          else Ok None) ;;
       writers <-? createOutputWriters w (OptionPkg.OutputPaths opt) ;;
       Ok (mkSlogLogger
             (mkBackend (mapToSlogLevel lv)
                (handlerFormat (OptionPkg.Format opt)) writers
                (NewFieldMapper w) [])
             lv (NewFieldMapper w) 0 (OptionPkg.DisableStacktrace opt)
             provider))
  end.

End Slog.

(** ** Package engines/zap: the performance adapter (engines/zap/zap.go) *)

Module Zap.

Import Fields.

(** [zapcore.Level] values. *)
Definition DebugLevel : Z := -1.
Definition InfoLevel : Z := 0.
Definition WarnLevel : Z := 1.
Definition ErrorLevel : Z := 2.
Definition FatalLevel : Z := 5.

Definition levelString (l : Z) : string :=
  if l =? DebugLevel then "debug"
  else if l =? InfoLevel then "info"
  else if l =? WarnLevel then "warn"
  else if l =? ErrorLevel then "error"
  else if l =? FatalLevel then "fatal"
  else "Level(" ++ pretty l ++ ")".

(** mapToZapLevel *)
Definition mapToZapLevel (level : Core.Level) : Z :=
  match level with
  | Core.DebugLevel => DebugLevel
  | Core.InfoLevel => InfoLevel
  | Core.WarnLevel => WarnLevel
  | Core.ErrorLevel => ErrorLevel
  | Core.FatalLevel => FatalLevel
  end.

(** The [*zap.Logger] and its sugared view.  The caller and stack trace
    keys that zap's own encoder adds are not listed among the fields. *)
Record Backend : Type := mkBackend {
  (** [config.Level] *)
  zLevel : Z;
  zEncoding : string;
  zOutputPaths : list string;
  zDisableCaller : bool;
  zDisableStacktrace : bool;
  (** [zap.AddCallerSkip] total *)
  zCallerSkip : Z;
  (** fields attached through [With], the engine identifier first *)
  zFields : list (string * any)
}.

Record ZapLogger : Type := mkZapLogger {
  logger       : Backend;
  level        : Core.Level;
  mapper       : FieldMapper;
  callerSkip   : Z;
  otlpProvider : option Otlp.LoggerProvider
}.

(** [SugaredLogger.sweetenFields] on loosely typed pairs: a pair with a
    string key becomes a field, any other pair and a last key without a
    value are reported by zap and left out. *)
Fixpoint sweetenFields (args : list any) : list (string * any) :=
  match args with
  | AString k :: v :: rest => (k, v) :: sweetenFields rest
  | _ :: _ :: rest => sweetenFields rest
  | _ => []
  end.

(** [SugaredLogger.log] after the message is built: nothing below the
    configured level; a fatal entry ends the process once written.
    zap's sampler, which thins out bursts of equal entries, is left
    out. *)
Definition log (b : Backend) (lvl : Z) (msg : string)
    (fields : list (string * any)) : list event :=
  let written :=
    if lvl <? zLevel b then []
    else [EvWrite "zap" (levelString lvl) msg (zFields b ++ fields)%list] in
  if lvl =? FatalLevel then (written ++ [EvExit 1])%list else written.

(** zap's [getMessage] for the variadic and printf methods. *)
Definition getMessage (w : World) (template : string) (fmtArgs : list any)
  : string :=
  match fmtArgs with
  | [] => template
  | _ =>
      if negb (String.eqb template "") then Sprintf w template fmtArgs
      else match fmtArgs with
           | [AString s] => s
           | _ => Sprint w fmtArgs
           end
  end.

(** ZapLogger.WithCallerSkip *)
Definition WithCallerSkip (l : ZapLogger) (skip : Z) : ZapLogger :=
  let b := logger l in
  mkZapLogger
    (mkBackend (zLevel b) (zEncoding b) (zOutputPaths b) (zDisableCaller b)
       (zDisableStacktrace b) (zCallerSkip b + skip) (zFields b))
    (level l) (mapper l) (callerSkip l + skip) (otlpProvider l).

(** ZapLogger.withDynamicCallerSkip *)
Definition withDynamicCallerSkip (w : World) (l : ZapLogger) : ZapLogger :=
  let extraSkip := if hasGlobalCall w then 1 else 0 in
  if 0 <? extraSkip then WithCallerSkip l extraSkip else l.

(** ZapLogger.standardizeFields: a last key without a value is kept,
    under its standard name, with a nil value. *)
Fixpoint standardizeFields (m : FieldMapper) (keysAndValues : list any)
  : list any :=
  match keysAndValues with
  | [] => []
  | [k] => [AString (getStandardFieldName m (anyToString k)); ANil]
  | k :: value :: rest =>
      let standardKey := getStandardFieldName m (anyToString k) in
      AString standardKey :: value :: standardizeFields m rest
  end.

(** The attribute map built by ZapLogger.sendToOTLP. *)
Fixpoint otlpAttributes (m : FieldMapper) (keysAndValues : list any)
    (attributes : gmap string any) : gmap string any :=
  match keysAndValues with
  | k :: value :: rest =>
      let standardKey := getStandardFieldName m (anyToString k) in
      otlpAttributes m rest (<[standardKey := value]> attributes)
  | _ => attributes
  end.

(** ZapLogger.sendToOTLP *)
Definition sendToOTLP (w : World) (l : ZapLogger) (lvl : Core.Level)
    (msg : string) (keysAndValues : list any) : list event :=
  match otlpProvider l with
  | None => []
  | Some p =>
      fst (Otlp.SendLogRecord (net w) p lvl msg
             (otlpAttributes (mapper l) keysAndValues ∅))
  end.

(** *** Variadic convention *)

Definition Debug (w : World) (l : ZapLogger) (args : list any) : list event :=
  let lg := withDynamicCallerSkip w l in
  log (logger lg) DebugLevel (getMessage w "" args) [].

Definition Info (w : World) (l : ZapLogger) (args : list any) : list event :=
  let lg := withDynamicCallerSkip w l in
  log (logger lg) InfoLevel (getMessage w "" args) [].

Definition Warn (w : World) (l : ZapLogger) (args : list any) : list event :=
  let lg := withDynamicCallerSkip w l in
  log (logger lg) WarnLevel (getMessage w "" args) [].

Definition Error (w : World) (l : ZapLogger) (args : list any) : list event :=
  let lg := withDynamicCallerSkip w l in
  log (logger lg) ErrorLevel (getMessage w "" args) [].

Definition Fatal (w : World) (l : ZapLogger) (args : list any) : list event :=
  let lg := withDynamicCallerSkip w l in
  log (logger lg) FatalLevel (getMessage w "" args) [].

(** *** Printf convention *)

Definition Debugf (w : World) (l : ZapLogger) (template : string)
    (args : list any) : list event :=
  let lg := withDynamicCallerSkip w l in
  log (logger lg) DebugLevel (getMessage w template args) [].

Definition Infof (w : World) (l : ZapLogger) (template : string)
    (args : list any) : list event :=
  let lg := withDynamicCallerSkip w l in
  log (logger lg) InfoLevel (getMessage w template args) [].

Definition Warnf (w : World) (l : ZapLogger) (template : string)
    (args : list any) : list event :=
  let lg := withDynamicCallerSkip w l in
  log (logger lg) WarnLevel (getMessage w template args) [].

Definition Errorf (w : World) (l : ZapLogger) (template : string)
    (args : list any) : list event :=
  let lg := withDynamicCallerSkip w l in
  log (logger lg) ErrorLevel (getMessage w template args) [].

Definition Fatalf (w : World) (l : ZapLogger) (template : string)
    (args : list any) : list event :=
  let lg := withDynamicCallerSkip w l in
  log (logger lg) FatalLevel (getMessage w template args) [].

(** *** Key/value convention *)

Definition Debugw (w : World) (l : ZapLogger) (msg : string)
    (keysAndValues : list any) : list event :=
  let lg := withDynamicCallerSkip w l in
  andThen
    (log (logger lg) DebugLevel msg
       (sweetenFields (standardizeFields (mapper lg) keysAndValues)))
    (sendToOTLP w l Core.DebugLevel msg keysAndValues).

Definition Infow (w : World) (l : ZapLogger) (msg : string)
    (keysAndValues : list any) : list event :=
  let lg := withDynamicCallerSkip w l in
  andThen
    (log (logger lg) InfoLevel msg
       (sweetenFields (standardizeFields (mapper lg) keysAndValues)))
    (sendToOTLP w l Core.InfoLevel msg keysAndValues).

Definition Warnw (w : World) (l : ZapLogger) (msg : string)
    (keysAndValues : list any) : list event :=
  let lg := withDynamicCallerSkip w l in
  andThen
    (log (logger lg) WarnLevel msg
       (sweetenFields (standardizeFields (mapper lg) keysAndValues)))
    (sendToOTLP w l Core.WarnLevel msg keysAndValues).

Definition Errorw (w : World) (l : ZapLogger) (msg : string)
    (keysAndValues : list any) : list event :=
  let lg := withDynamicCallerSkip w l in
  andThen
    (log (logger lg) ErrorLevel msg
       (sweetenFields (standardizeFields (mapper lg) keysAndValues)))
    (sendToOTLP w l Core.ErrorLevel msg keysAndValues).

Definition Fatalw (w : World) (l : ZapLogger) (msg : string)
    (keysAndValues : list any) : list event :=
  let lg := withDynamicCallerSkip w l in
  andThen
    (log (logger lg) FatalLevel msg
       (sweetenFields (standardizeFields (mapper lg) keysAndValues)))
    (sendToOTLP w l Core.FatalLevel msg keysAndValues).

(** *** Child loggers and level *)

Definition With (l : ZapLogger) (keysAndValues : list any) : ZapLogger :=
  let b := logger l in
  mkZapLogger
    (mkBackend (zLevel b) (zEncoding b) (zOutputPaths b) (zDisableCaller b)
       (zDisableStacktrace b) (zCallerSkip b)
       (zFields b ++ sweetenFields (standardizeFields (mapper l) keysAndValues))%list)
    (level l) (mapper l) (callerSkip l) (otlpProvider l).

Definition WithCtx (l : ZapLogger) (keysAndValues : list any) : ZapLogger :=
  With l keysAndValues.

Definition SetLevel (l : ZapLogger) (lv : Core.Level) : ZapLogger :=
  mkZapLogger (logger l) lv (mapper l) (callerSkip l) (otlpProvider l).

(** *** Construction *)

(** normalizeOutputPaths *)
Definition normalizeOutputPaths (paths : list string) : list string :=
  List.map
    (fun path =>
       let lp := Core.to_lower path in
       if String.eqb lp "stdout" || String.eqb lp "" then "stdout"
       else if String.eqb lp "stderr" then "stderr"
       else path)
    paths.

Definition configEncoding (format : string) : string :=
  let f := Core.to_lower format in
  if String.eqb f "console" || String.eqb f "text" then "console"
  else "json".

(** The output paths of createZapConfig: the preset's ["stderr"] unless
    the option lists some. *)
Definition configOutputPaths (paths : list string) : list string :=
  match paths with
  | [] => ["stderr"]
  | _ => normalizeOutputPaths paths
  end.

(** NewZapLogger *)
Definition NewZapLogger (w : World) (opt : OptionPkg.LogOption)
  : OptionPkg.LogOption * result ZapLogger :=
  match OptionPkg.Validate opt with
  | (opt, Some err) => (opt, Err err)
  | (opt, None) =>
      (opt,
       lv <-? Core.ParseLevel (OptionPkg.Level opt) ;;
       provider <-?
         (if OptionPkg.IsOTLPEnabled opt then
            match Otlp.NewLoggerProvider (net w) (OptionPkg.OTLP opt) with
            | Err e => Err (ErrWrap "failed to create OTLP provider" e)
            | Ok p => Ok (Some p)
            end
          else Ok None) ;;
       let encoding := configEncoding (OptionPkg.Format opt) in
       let paths := configOutputPaths (OptionPkg.OutputPaths opt) in
       match zapBuild w encoding paths with
       | Some e => Err e
       | None =>
           Ok (mkZapLogger
                 (mkBackend (mapToZapLevel lv) encoding paths
                    (OptionPkg.DisableCaller opt)
                    (OptionPkg.DisableStacktrace opt) 1
                    [("engine", AString "zap")])
                 lv (NewFieldMapper w) 0 provider)
       end)
  end.

End Zap.

(** ** The Logger interface and the factory (factory/factory.go) *)

(** [core.Logger] has exactly two implementations. *)
Inductive Logger : Type :=
| SlogImpl (l : Slog.SlogLogger)
| ZapImpl (l : Zap.ZapLogger).

Definition engineOf (l : Logger) : string :=
  match l with SlogImpl _ => "slog" | ZapImpl _ => "zap" end.

(** The five severity-leveled methods and the three calling conventions
    of the interface. *)
Inductive convention : Type :=
| Variadic (args : list any)
| Printf (template : string) (args : list any)
| KeyValue (msg : string) (keysAndValues : list any).

(** Interface dispatch: method [lvl] in convention [c] on logger [l]. *)
Definition call (w : World) (l : Logger) (lvl : Core.Level) (c : convention)
  : list event :=
  match l, lvl, c with
  | SlogImpl l, Core.DebugLevel, Variadic a => Slog.Debug w l a
  | SlogImpl l, Core.InfoLevel, Variadic a => Slog.Info w l a
  | SlogImpl l, Core.WarnLevel, Variadic a => Slog.Warn w l a
  | SlogImpl l, Core.ErrorLevel, Variadic a => Slog.Error w l a
  | SlogImpl l, Core.FatalLevel, Variadic a => Slog.Fatal w l a
  | SlogImpl l, Core.DebugLevel, Printf t a => Slog.Debugf w l t a
  | SlogImpl l, Core.InfoLevel, Printf t a => Slog.Infof w l t a
  | SlogImpl l, Core.WarnLevel, Printf t a => Slog.Warnf w l t a
  | SlogImpl l, Core.ErrorLevel, Printf t a => Slog.Errorf w l t a
  | SlogImpl l, Core.FatalLevel, Printf t a => Slog.Fatalf w l t a
  | SlogImpl l, Core.DebugLevel, KeyValue m kv => Slog.Debugw w l m kv
  | SlogImpl l, Core.InfoLevel, KeyValue m kv => Slog.Infow w l m kv
  | SlogImpl l, Core.WarnLevel, KeyValue m kv => Slog.Warnw w l m kv
  | SlogImpl l, Core.ErrorLevel, KeyValue m kv => Slog.Errorw w l m kv
  | SlogImpl l, Core.FatalLevel, KeyValue m kv => Slog.Fatalw w l m kv
  | ZapImpl l, Core.DebugLevel, Variadic a => Zap.Debug w l a
  | ZapImpl l, Core.InfoLevel, Variadic a => Zap.Info w l a
  | ZapImpl l, Core.WarnLevel, Variadic a => Zap.Warn w l a
  | ZapImpl l, Core.ErrorLevel, Variadic a => Zap.Error w l a
  | ZapImpl l, Core.FatalLevel, Variadic a => Zap.Fatal w l a
  | ZapImpl l, Core.DebugLevel, Printf t a => Zap.Debugf w l t a
  | ZapImpl l, Core.InfoLevel, Printf t a => Zap.Infof w l t a
  | ZapImpl l, Core.WarnLevel, Printf t a => Zap.Warnf w l t a
  | ZapImpl l, Core.ErrorLevel, Printf t a => Zap.Errorf w l t a
  | ZapImpl l, Core.FatalLevel, Printf t a => Zap.Fatalf w l t a
  | ZapImpl l, Core.DebugLevel, KeyValue m kv => Zap.Debugw w l m kv
  | ZapImpl l, Core.InfoLevel, KeyValue m kv => Zap.Infow w l m kv
  | ZapImpl l, Core.WarnLevel, KeyValue m kv => Zap.Warnw w l m kv
  | ZapImpl l, Core.ErrorLevel, KeyValue m kv => Zap.Errorw w l m kv
  | ZapImpl l, Core.FatalLevel, KeyValue m kv => Zap.Fatalw w l m kv
  end.

(** The configured minimum level and the export client of a logger. *)
Definition levelOf (l : Logger) : Core.Level :=
  match l with SlogImpl l => Slog.level l | ZapImpl l => Zap.level l end.

Definition providerOf (l : Logger) : option Otlp.LoggerProvider :=
  match l with
  | SlogImpl l => Slog.otlpProvider l
  | ZapImpl l => Zap.otlpProvider l
  end.

Module Factory.

(** What one CreateLogger call leaves behind: the option it holds (the
    constructors and Validate write to it), the engines whose constructor
    ran, in order, and the returned pair. *)
Record Outcome : Type := mkOutcome {
  option_after : OptionPkg.LogOption;
  attempts     : list string;
  returned     : result Logger
}.

(** createZapLogger and createSlogLogger *)
Definition createZapLogger (w : World) (opt : OptionPkg.LogOption)
  : OptionPkg.LogOption * result Logger :=
  let '(opt, r) := Zap.NewZapLogger w opt in
  (opt, l <-? r ;; Ok (ZapImpl l)).

Definition createSlogLogger (w : World) (opt : OptionPkg.LogOption)
  : OptionPkg.LogOption * result Logger :=
  let '(opt, r) := Slog.NewSlogLogger w opt in
  (opt, l <-? r ;; Ok (SlogImpl l)).

(** LoggerFactory.CreateLogger *)
Definition CreateLogger (w : World) (opt : OptionPkg.LogOption) : Outcome :=
  match OptionPkg.Validate opt with
  | (opt, Some err) =>
      mkOutcome opt [] (Err (ErrWrap "invalid configuration" err))
  | (opt, None) =>
      if negb (OptionPkg.engine_known (OptionPkg.Engine opt)) then
        mkOutcome opt []
          (Err (ErrMsg ("unsupported logger engine: " ++ OptionPkg.Engine opt)))
      else if String.eqb (OptionPkg.Engine opt) "zap" then
        match createZapLogger w opt with
        | (opt, Ok lg) => mkOutcome opt ["zap"] (Ok lg)
        | (opt, Err _) =>
            let '(opt, r) := createSlogLogger w opt in
            mkOutcome opt ["zap"; "slog"] r
        end
      else if String.eqb (OptionPkg.Engine opt) "slog" then
        match createSlogLogger w opt with
        | (opt, Ok lg) => mkOutcome opt ["slog"] (Ok lg)
        | (opt, Err _) =>
            let '(opt, r) := createZapLogger w opt in
            mkOutcome opt ["slog"; "zap"] r
        end
      else
        mkOutcome opt []
          (Err (ErrMsg ("unsupported logger engine: " ++ OptionPkg.Engine opt)))
  end.

(** LoggerFactory.UpdateOption: the held option and the error. *)
Definition UpdateOption (held opt : OptionPkg.LogOption)
  : OptionPkg.LogOption * option error :=
  match OptionPkg.Validate opt with
  | (_, Some err) => (held, Some (ErrWrap "invalid configuration update" err))
  | (opt, None) => (opt, None)
  end.

End Factory.

(** ** The specification's wording, kept apart from the code *)

Module Spec.

(** "one of the five recognized level names", compared without regard
    to case. *)
Definition level_recognised (s : string) : Prop :=
  exists l, In (Core.to_lower s, l) Core.level_names.

(** "the nested Export Setting is absent or empty": no nested record,
    or one whose enabled flag, endpoint, protocol and timeout are all
    unset. *)
Definition nested_absent_or_empty (n : option OptionPkg.OTLPOption) : Prop :=
  match n with
  | None => True
  | Some o =>
      OptionPkg.Enabled o = None /\ OptionPkg.Endpoint o = "" /\
      OptionPkg.Protocol o = "" /\ OptionPkg.Timeout o = 0
  end.

(** The engine selector after normalization to the closed set. *)
Definition normalized_engine (engine : string) : string :=
  if OptionPkg.engine_known engine then engine else "slog".

(** [strings.Contains] *)
Fixpoint contains (s sub : string) : bool :=
  Otlp.HasPrefix s sub ||
  match s with
  | EmptyString => false
  | String _ r => contains r sub
  end.

(** "the endpoint already contains a scheme" *)
Definition has_scheme (endpoint : string) : bool := contains endpoint "://".

(** The request URL as the specification words it: the literal endpoint
    when it has a scheme, the fixed sub-path on a bare host:port
    otherwise. *)
Definition request_url (endpoint : string) : string :=
  if has_scheme endpoint then endpoint
  else "http://" ++ endpoint ++ "/v1/logs".

(** The other engine of the two. *)
Definition alternate (engine : string) : string :=
  if String.eqb engine "zap" then "slog" else "zap".

(** Running the constructor of the named engine. *)
Definition construct (w : World) (engine : string) (opt : OptionPkg.LogOption)
  : result Logger :=
  if String.eqb engine "zap" then snd (Factory.createZapLogger w opt)
  else snd (Factory.createSlogLogger w opt).

(** The backend filters at the level the adapter was configured with,
    as both constructors arrange it. *)
Definition backend_level_consistent (l : Logger) : Prop :=
  match l with
  | SlogImpl l => Slog.hLevel (Slog.logger l) = Slog.mapToSlogLevel (Slog.level l)
  | ZapImpl l => Zap.zLevel (Zap.logger l) = Zap.mapToZapLevel (Zap.level l)
  end.

(** A call in the variadic or the printf convention. *)
Definition plain (c : convention) : bool :=
  match c with KeyValue _ _ => false | _ => true end.

(** The attributes of the records written locally in a trace. *)
Definition written_attrs (t : list event) : list (string * any) :=
  List.concat
    (List.map (fun e => match e with
                        | EvWrite _ _ _ attrs => attrs
                        | _ => []
                        end) t).

(** The attribute maps handed to the Export Client in a trace. *)
Definition exported_maps (t : list event) : list (gmap string any) :=
  List.concat
    (List.map (fun e => match e with
                        | EvSendLogRecord _ _ attributes => [attributes]
                        | _ => []
                        end) t).

End Spec.

(** ** Concrete worlds, options and loggers used in the examples *)

Module Samples.

Definition mapper : Fields.FieldMapper :=
  Fields.mkFieldMapper
    {[ "ts" := "timestamp"; "msg" := "message" ]}
    {[ "trace.id" := "trace_id"; "span.id" := "span_id" ]}.

(** A world in which nothing fails. *)
Definition calm : World :=
  mkWorld
    (Otlp.mkNet (fun _ => None) None false (fun _ => false) (fun _ => Ok 200))
    mapper (fun _ => None) (fun _ _ => None) false
    (fun _ => "app/main.go:42") (fun _ => "main.main")
    (fun template _ => template)
    (fun args => String.concat " " (List.map anyToString args)).

(** The same world, except that zap cannot be built. *)
Definition zapBroken : World :=
  mkWorld (net calm) mapper (fun _ => None)
    (fun _ _ => Some (ErrMsg "zap: cannot open sink")) false
    (callerAt calm) (stackFrom calm) (Sprintf calm) (Sprint calm).

Definition option_with (engine lvl flat : string)
    (nested : option OptionPkg.OTLPOption) : OptionPkg.LogOption :=
  OptionPkg.mkLogOption engine lvl "json" ["stdout"] flat nested
    false false false.

Definition nested_with (en : option bool) (ep : string) : OptionPkg.OTLPOption :=
  OptionPkg.mkOTLPOption en ep "" 0 ∅ false.

Definition config_with (flat : string) (nested : option ConfigPkg.OTLPConfig)
  : ConfigPkg.Config :=
  ConfigPkg.mkConfig "slog" "INFO" "json" ["stdout"] flat nested
    false false false.

(** Both endpoints given, nothing about enabled. *)
Definition bothOption : OptionPkg.LogOption :=
  option_with "slog" "INFO" "http://flattened:4317"
    (Some (nested_with None "http://nested:4317")).

Definition bothConfig : ConfigPkg.Config :=
  config_with "http://flattened:4317"
    (Some (ConfigPkg.mkOTLPConfig None "http://nested:4317" "" 0 ∅)).

(** Both endpoints given and export switched off by hand. *)
Definition disabledOption : OptionPkg.LogOption :=
  option_with "slog" "INFO" "http://localhost:4317"
    (Some (nested_with (Some false) "http://nested:4317")).

(** Only the flattened endpoint given. *)
Definition flatOnlyOption : OptionPkg.LogOption :=
  option_with "slog" "INFO" "http://localhost:4317" None.

(** An export client over gRPC, as NewLoggerProvider builds it for the
    endpoint [localhost:4317]. *)
Definition provider : Otlp.LoggerProvider :=
  Otlp.mkLoggerProvider
    (Otlp.mkOTLPClient "localhost:4317" "grpc" (10 * OptionPkg.Second) ∅ false true)
    [("service.name", "kart-io-logger"); ("service.version", "1.0.0");
     ("job", "kart-io-logger"); ("instance", "localhost")].

(** The loggers that the two constructors return in the calm world for
    level INFO with export to [localhost:4317]. *)
Definition slogInfo : Slog.SlogLogger :=
  Slog.mkSlogLogger (Slog.mkBackend Slog.LevelInfo "json" ["stdout"] mapper [])
    Core.InfoLevel mapper 0 false (Some provider).

Definition zapInfo : Zap.ZapLogger :=
  Zap.mkZapLogger
    (Zap.mkBackend Zap.InfoLevel "json" ["stdout"] false false 1
       [("engine", AString "zap")])
    Core.InfoLevel mapper 0 (Some provider).

(** An HTTP client for an endpoint. *)
Definition httpClient (endpoint : string) : Otlp.OTLPClient :=
  Otlp.mkOTLPClient endpoint "http" (10 * OptionPkg.Second) ∅ false false.

End Samples.

(** ** Package logger: the process-wide handle (logger.go) *)

Module Global.

(** [err.Error()] *)
Fixpoint errorString (e : error) : string :=
  match e with
  | ErrMsg m => m
  | ErrWrap p c => p ++ ": " ++ errorString c
  end.

(** A call that returns or panics. *)
Inductive outcome (A : Type) : Type :=
| Returns (a : A)
| Panics (msg : string).
Arguments Returns {A} a.
Arguments Panics {A} msg.

(** New: a factory around the option, then CreateLogger. *)
Definition New (w : World) (opt : OptionPkg.LogOption) : result Logger :=
  Factory.returned (Factory.CreateLogger w opt).

(** NewWithDefaults *)
Definition NewWithDefaults (w : World) : result Logger :=
  New w OptionPkg.DefaultLogOption.

(** SetGlobal: the package variable [global] after the call; a nil
    interface is [None]. *)
Definition SetGlobal (lg : option Logger) (global : option Logger)
  : option Logger := lg.

(** Global: the package variable after the call, and the logger
    returned or the panic. *)
Definition GetGlobal (w : World) (global : option Logger)
  : option Logger * outcome Logger :=
  match global with
  | Some lg => (global, Returns lg)
  | None =>
      match NewWithDefaults w with
      | Err err =>
          (None, Panics ("failed to create default logger: " ++ errorString err))
      | Ok lg => (Some lg, Returns lg)
      end
  end.

(** The package-level logging functions: [Global().M(args...)]; a
    panic of Global is passed on. *)
Definition callGlobal (w : World) (global : option Logger)
    (lvl : Core.Level) (c : convention)
  : option Logger * outcome (list event) :=
  match GetGlobal w global with
  | (g, Returns lg) => (g, Returns (call w lg lvl c))
  | (g, Panics m) => (g, Panics m)
  end.

End Global.

(** ** The exported record (otlp/provider.go, createLogRecord) *)

Module OtlpRecord.

(** The cases of [commonv1.AnyValue] that createLogRecord builds. *)
Inductive AnyValue : Type :=
| StringValue (s : string)
| IntValue (n : Z)
| BoolValue (b : bool).

Record LogRecord : Type := mkLogRecord {
  TimeUnixNano         : Z;
  ObservedTimeUnixNano : Z;
  SeverityNumber       : Z;
  SeverityText         : string;
  Body                 : AnyValue;
  Attributes           : list (string * AnyValue)
}.

(** mapLevelToSeverityNumber, with the numbers of the OTLP enumeration
    (DEBUG 5, INFO 9, WARN 13, ERROR 17, FATAL 21). *)
Definition mapLevelToSeverityNumber (level : Core.Level) : Z :=
  match level with
  | Core.DebugLevel => 5
  | Core.InfoLevel => 9
  | Core.WarnLevel => 13
  | Core.ErrorLevel => 17
  | Core.FatalLevel => 21
  end.

Definition ascii_upper (c : ascii) : ascii :=
  let n := nat_of_ascii c in
  if ((97 <=? n) && (n <=? 122))%nat then ascii_of_nat (n - 32) else c.

(** [strings.ToUpper] on ASCII letters. *)
Fixpoint to_upper (s : string) : string :=
  match s with
  | EmptyString => EmptyString
  | String c r => String (ascii_upper c) (to_upper r)
  end.

(** The type switch on a user attribute: strings, integers and booleans
    keep their type; nil takes the default branch, where
    [json.Marshal(nil)] gives the string null. *)
Definition convertValue (v : any) : AnyValue :=
  match v with
  | AString s => StringValue s
  | AInt n => IntValue n
  | ABool b => BoolValue b
  | ANil => StringValue "null"
  end.

(** createLogRecord.  [nowNano] and [nowText] are [time.Now()] as
    nanoseconds and in RFC 3339 form.  Go visits the attribute map in
    no fixed order; the order of [map_to_list] stands for it. *)
Definition createLogRecord (nowNano : Z) (nowText : string)
    (level : Core.Level) (message : string) (attributes : gmap string any)
  : LogRecord :=
  let otlpAttributes :=
    ([("level", StringValue (Core.to_lower (Core.String level)));
      ("@timestamp", StringValue nowText);
      ("_msg", StringValue message)]
     ++ List.map (fun kv => (fst kv, convertValue (snd kv)))
          (map_to_list attributes))%list in
  mkLogRecord nowNano nowNano (mapLevelToSeverityNumber level)
    (to_upper (Core.String level)) (StringValue message) otlpAttributes.

End OtlpRecord.

(** ** Views used to compare the two resolvers and the two adapters *)

Module Relate.

(** A LogOption seen as a Config: the same fields, the nested record
    without [Insecure], which Config does not have. *)
Definition nestedConfig (o : OptionPkg.OTLPOption) : ConfigPkg.OTLPConfig :=
  ConfigPkg.mkOTLPConfig (OptionPkg.Enabled o) (OptionPkg.Endpoint o)
    (OptionPkg.Protocol o) (OptionPkg.Timeout o) (OptionPkg.Headers o).

Definition toConfig (opt : OptionPkg.LogOption) : ConfigPkg.Config :=
  ConfigPkg.mkConfig (OptionPkg.Engine opt) (OptionPkg.Level opt)
    (OptionPkg.Format opt) (OptionPkg.OutputPaths opt)
    (OptionPkg.OTLPEndpoint opt)
    (match OptionPkg.OTLP opt with
     | None => None
     | Some o => Some (nestedConfig o)
     end)
    (OptionPkg.Development opt) (OptionPkg.DisableCaller opt)
    (OptionPkg.DisableStacktrace opt).

(** The nested record of an option, a nil one read as the zero record
    that the resolver allocates. *)
Definition nestedOf (opt : OptionPkg.LogOption) : OptionPkg.OTLPOption :=
  match OptionPkg.OTLP opt with
  | None => OptionPkg.zeroOTLPOption
  | Some o => o
  end.


(** The path names one of the two standard streams, in any letter
    case; the empty path counts as stdout. *)
Definition standard_stream (path : string) : bool :=
  let lp := Core.to_lower path in
  String.eqb lp "stdout" || String.eqb lp "" || String.eqb lp "stderr".

(** The number of records a trace writes locally. *)
Definition local_writes (t : list event) : nat :=
  List.length (List.filter is_write t).

(** The adapter's own identifier is among a zap logger's fields. *)
Definition zap_engine_tagged (l : Zap.ZapLogger) : Prop :=
  In ("engine", AString "zap") (Zap.zFields (Zap.logger l)).

End Relate.

(** ** More concrete worlds and loggers *)

Module Cases.

(** A world in which the collector cannot be dialled, no file can be
    opened and zap cannot be built. *)
Definition offline : World :=
  mkWorld
    (Otlp.mkNet (fun _ => Some (ErrMsg "dial failed")) (Some (ErrMsg "unavailable"))
       false (fun _ => false) (fun _ => Err (ErrMsg "connection refused")))
    Samples.mapper (fun _ => Some (ErrMsg "permission denied"))
    (fun _ _ => Some (ErrMsg "zap: cannot open sink")) false
    (fun _ => "") (fun _ => "")
    (fun template _ => template)
    (fun args => String.concat " " (List.map anyToString args)).

(** Export to a gRPC collector, requested by the flattened endpoint. *)
Definition grpcOption : OptionPkg.LogOption :=
  Samples.option_with "zap" "INFO" "collector:4317" None.

(** Loggers at level WARN without export. *)
Definition slogWarn : Slog.SlogLogger :=
  Slog.mkSlogLogger
    (Slog.mkBackend Slog.LevelWarn "json" ["stdout"] Samples.mapper [])
    Core.WarnLevel Samples.mapper 0 false None.



End Cases.

(** * Properties *)

(** ** Small facts about strings and the result type *)

Lemma eqb_empty_false (s : string) : s <> "" -> String.eqb s "" = false.
Proof. intros H. now apply String.eqb_neq. Qed.

Lemma eqb_empty_true (s : string) : String.eqb s "" = true -> s = "".
Proof. now intros H%String.eqb_eq. Qed.

Lemma engine_known_spec (e : string) :
  OptionPkg.engine_known e = true <-> e = "zap" \/ e = "slog".
Proof.
  unfold OptionPkg.engine_known. rewrite orb_true_iff, !String.eqb_eq. tauto.
Qed.

Lemma assoc_level_In (s : string) (tbl : list (string * Core.Level)) :
  (exists l, Core.assoc_level s tbl = Some l) <-> (exists l, In (s, l) tbl).
Proof.
  induction tbl as [|[n l] tbl IH]; simpl.
  - split; intros [l H]; [discriminate | contradiction].
  - destruct (String.eqb s n) eqn:E.
    + apply String.eqb_eq in E; subst. split; intros _; exists l; auto.
    + apply String.eqb_neq in E. rewrite IH. split; intros [l' H]; exists l'.
      * now right.
      * destruct H as [H|H]; [congruence | exact H].
Qed.

(** ParseLevel fails exactly on the strings that are none of the five
    names. *)
Lemma ParseLevel_err_iff (s : string) :
  is_err (Core.ParseLevel s) = true <-> ~ Spec.level_recognised s.
Proof.
  unfold Core.ParseLevel, Spec.level_recognised.
  rewrite <- assoc_level_In.
  destruct (Core.assoc_level (Core.to_lower s) Core.level_names) as [l|]; simpl.
  - split; [discriminate | intros H; exfalso; apply H; eauto].
  - split; [intros _ [l H]; discriminate | reflexivity].
Qed.

(** ** Configuration resolution *)

Section Resolution.

Import OptionPkg.

(** resolveOTLPConfig touches nothing but the nested record. *)
Lemma resolve_keeps_selectors (opt : LogOption) :
  Engine (resolveOTLPConfig opt) = Engine opt /\
  Level (resolveOTLPConfig opt) = Level opt /\
  OTLPEndpoint (resolveOTLPConfig opt) = OTLPEndpoint opt.
Proof.
  unfold resolveOTLPConfig.
  destruct (negb _); [destruct (Enabled _) as [[|]|] |]; auto.
Qed.

Lemma resolve_idempotent_LogOption (opt : LogOption) :
  resolveOTLPConfig (resolveOTLPConfig opt) = resolveOTLPConfig opt.
Proof.
  destruct opt as [eng lv fmt paths flat [[[[|]|] ep pr to hd ins]|] dev dc ds];
    unfold resolveOTLPConfig, applyEnabledDefaults; cbn.
  all: destruct (String.eqb flat "") eqn:Hflat; cbn.
  all: try destruct (String.eqb ep "") eqn:Hep; cbn.
  all: try destruct (String.eqb pr "") eqn:Hpr; cbn.
  all: try destruct (Z.eqb to 0) eqn:Hto; cbn.
  all: rewrite ?Hflat, ?Hep, ?Hpr, ?Hto; cbn;
       rewrite ?Hflat, ?Hep, ?Hpr, ?Hto; cbn.
  all: reflexivity.
Qed.

Lemma resolve_idempotent_Config (c : ConfigPkg.Config) :
  ConfigPkg.resolveOTLPConfig (ConfigPkg.resolveOTLPConfig c)
  = ConfigPkg.resolveOTLPConfig c.
Proof.
  destruct c as [eng lv fmt paths flat [[[[|]|] ep pr to hd]|] dev dc ds];
    unfold ConfigPkg.resolveOTLPConfig, ConfigPkg.applyEnabledDefaults; cbn.
  all: destruct (String.eqb flat "") eqn:Hflat; cbn.
  all: try destruct (String.eqb ep "") eqn:Hep; cbn.
  all: try destruct (String.eqb pr "") eqn:Hpr; cbn.
  all: try destruct (Z.eqb to 0) eqn:Hto; cbn.
  all: repeat (rewrite ?Hflat, ?Hep, ?Hpr, ?Hto;
               cbn [ConfigPkg.set_OTLP ConfigPkg.set_Endpoint
                    ConfigPkg.set_Enabled ConfigPkg.set_Protocol
                    ConfigPkg.set_Timeout ConfigPkg.OTLP ConfigPkg.OTLPEndpoint
                    ConfigPkg.Enabled ConfigPkg.Endpoint ConfigPkg.Protocol
                    ConfigPkg.Timeout ConfigPkg.Headers negb]).
  all: rewrite ?Hflat, ?Hep, ?Hpr, ?Hto; cbn;
       rewrite ?Hflat, ?Hep, ?Hpr, ?Hto; cbn.
  all: reflexivity.
Qed.

(** C10: resolving a configuration twice gives exactly the
    configuration that resolving it once gives, enabled flag, endpoint,
    protocol and timeout included, for the LogOption resolver and for
    the Config resolver. *)
Theorem resolveOTLPConfig_idempotent :
  (forall opt : LogOption,
      resolveOTLPConfig (resolveOTLPConfig opt) = resolveOTLPConfig opt) /\
  (forall c : ConfigPkg.Config,
      ConfigPkg.resolveOTLPConfig (ConfigPkg.resolveOTLPConfig c)
      = ConfigPkg.resolveOTLPConfig c).
Proof.
  split; [exact resolve_idempotent_LogOption | exact resolve_idempotent_Config].
Qed.

(** C1: when the nested setting says enabled = false, IsOTLPEnabled is
    false after resolveOTLPConfig, and after Validate as well, whatever
    the flattened and the nested endpoint are. *)
Theorem explicit_disable_wins (opt : LogOption) (o : OTLPOption) :
  OTLP opt = Some o ->
  Enabled o = Some false ->
  IsOTLPEnabled (resolveOTLPConfig opt) = false /\
  IsOTLPEnabled (fst (Validate opt)) = false.
Proof.
  intros Ho Hen.
  assert (Hres : IsOTLPEnabled (resolveOTLPConfig opt) = false).
  { unfold resolveOTLPConfig, IsOTLPEnabled. rewrite Ho, Hen.
    destruct (negb _); cbn; unfold applyEnabledDefaults; now rewrite ?Hen. }
  split; [exact Hres|].
  unfold Validate. destruct (Core.ParseLevel (Level opt)); cbn.
  - destruct (negb (engine_known _)); exact Hres.
  - unfold IsOTLPEnabled. now rewrite Ho, Hen.
Qed.

Lemma explicit_disable_wins_witness :
  IsOTLPEnabled (resolveOTLPConfig Samples.disabledOption) = false /\
  IsOTLPEnabled (fst (Validate Samples.disabledOption)) = false.
Proof.
  apply (explicit_disable_wins Samples.disabledOption
           (Samples.nested_with (Some false) "http://nested:4317"));
    reflexivity.
Defined.

(** C7: a non-empty flattened endpoint with the nested setting absent
    or empty resolves to an enabled export whose endpoint is the
    flattened value, whose protocol is grpc and whose timeout is ten
    seconds. *)
Theorem flattened_only_enables_with_defaults (opt : LogOption) :
  OTLPEndpoint opt <> "" ->
  Spec.nested_absent_or_empty (OTLP opt) ->
  IsOTLPEnabled (resolveOTLPConfig opt) = true /\
  exists o', OTLP (resolveOTLPConfig opt) = Some o' /\
             Endpoint o' = OTLPEndpoint opt /\
             Protocol o' = "grpc" /\
             Timeout o' = 10 * Second.
Proof.
  intros Hflat Hnest. apply eqb_empty_false in Hflat.
  unfold resolveOTLPConfig, IsOTLPEnabled. rewrite Hflat. cbn.
  destruct (OTLP opt) as [[en ep pr to hd ins]|]; cbn in *.
  - destruct Hnest as (-> & _ & -> & ->). cbn.
    rewrite Hflat. split; [reflexivity|]. eexists; repeat split.
  - rewrite Hflat. split; [reflexivity|]. eexists; repeat split.
Qed.

Lemma flattened_only_enables_with_defaults_witness :
  IsOTLPEnabled (resolveOTLPConfig Samples.flatOnlyOption) = true /\
  exists o', OTLP (resolveOTLPConfig Samples.flatOnlyOption) = Some o' /\
             Endpoint o' = "http://localhost:4317" /\
             Protocol o' = "grpc" /\
             Timeout o' = 10000000000.
Proof.
  apply (flattened_only_enables_with_defaults Samples.flatOnlyOption).
  - discriminate.
  - exact I.
Defined.

(** C2, as amended: with both endpoints non-empty and enabled not
    explicitly false, the LogOption resolver puts the flattened value in
    the nested endpoint, while the Config resolver leaves the nested
    endpoint as it was given. *)
Theorem both_endpoints_LogOption_flattened_Config_nested
    (opt : LogOption) (o : OTLPOption)
    (c : ConfigPkg.Config) (oc : ConfigPkg.OTLPConfig) :
  OTLP opt = Some o ->
  OTLPEndpoint opt <> "" -> Endpoint o <> "" -> Enabled o <> Some false ->
  ConfigPkg.OTLP c = Some oc ->
  ConfigPkg.OTLPEndpoint c <> "" -> ConfigPkg.Endpoint oc <> "" ->
  ConfigPkg.Enabled oc <> Some false ->
  (exists o', OTLP (resolveOTLPConfig opt) = Some o' /\
              Endpoint o' = OTLPEndpoint opt) /\
  (exists oc', ConfigPkg.OTLP (ConfigPkg.resolveOTLPConfig c) = Some oc' /\
               ConfigPkg.Endpoint oc' = ConfigPkg.Endpoint oc).
Proof.
  intros Ho Hflat _ Hen Hoc Hcflat Hcep Hcen.
  apply eqb_empty_false in Hflat, Hcflat, Hcep. split.
  - unfold resolveOTLPConfig. rewrite Ho, Hflat. cbn.
    destruct (Enabled o) as [[|]|] eqn:E; try congruence;
      unfold applyEnabledDefaults; cbn; rewrite ?E;
      repeat match goal with |- context [if ?b then _ else _] => destruct b end;
      eexists; split; reflexivity.
  - unfold ConfigPkg.resolveOTLPConfig. rewrite Hoc, Hcflat. cbn.
    destruct (ConfigPkg.Enabled oc) as [[|]|] eqn:E; try congruence;
      unfold ConfigPkg.applyEnabledDefaults; cbn; rewrite ?E, ?Hcep; cbn;
      rewrite ?E;
      repeat match goal with |- context [if ?b then _ else _] => destruct b end;
      eexists; split; reflexivity.
Qed.

Lemma both_endpoints_LogOption_flattened_Config_nested_witness :
  (exists o', OTLP (resolveOTLPConfig Samples.bothOption) = Some o' /\
              Endpoint o' = "http://flattened:4317") /\
  (exists oc', ConfigPkg.OTLP (ConfigPkg.resolveOTLPConfig Samples.bothConfig)
               = Some oc' /\
               ConfigPkg.Endpoint oc' = "http://nested:4317").
Proof.
  apply (both_endpoints_LogOption_flattened_Config_nested
           Samples.bothOption (Samples.nested_with None "http://nested:4317")
           Samples.bothConfig
           (ConfigPkg.mkOTLPConfig None "http://nested:4317" "" 0 ∅));
    first [reflexivity | discriminate].
Defined.

(** C2, as stated, fails for the Config resolver: with flattened
    endpoint http://flattened:4317 and nested endpoint
    http://nested:4317, enabled unset, the resolved nested endpoint is
    not the flattened value. *)
Lemma Config_resolver_flattened_does_not_win :
  ConfigPkg.OTLPEndpoint Samples.bothConfig <> "" /\
  (exists oc, ConfigPkg.OTLP Samples.bothConfig = Some oc /\
              ConfigPkg.Endpoint oc <> "" /\
              ConfigPkg.Enabled oc <> Some false) /\
  ~ (exists oc', ConfigPkg.OTLP (ConfigPkg.resolveOTLPConfig Samples.bothConfig)
                 = Some oc' /\
                 ConfigPkg.Endpoint oc'
                 = ConfigPkg.OTLPEndpoint Samples.bothConfig).
Proof.
  split; [discriminate|]. split.
  - eexists; split; [reflexivity|]. split; discriminate.
  - intros (oc' & H & E). cbn in H. injection H as <-. discriminate E.
Qed.

End Resolution.

(** ** Validation *)

Section Validation.

Import OptionPkg.

Lemma Validate_err_iff (opt : LogOption) :
  snd (Validate opt) <> None <-> ~ Spec.level_recognised (Level opt).
Proof.
  rewrite <- ParseLevel_err_iff. unfold Validate.
  destruct (Core.ParseLevel (Level opt)); cbn; split; congruence.
Qed.

(** A rejected option is handed back as it came. *)
Lemma Validate_error_leaves_option (opt : LogOption) (e : error) :
  snd (Validate opt) = Some e -> fst (Validate opt) = opt.
Proof.
  unfold Validate. destruct (Core.ParseLevel (Level opt)); cbn; congruence.
Qed.

Lemma Validate_ok_engine (opt : LogOption) :
  snd (Validate opt) = None ->
  Engine (fst (Validate opt)) = Spec.normalized_engine (Engine opt).
Proof.
  unfold Validate, Spec.normalized_engine.
  destruct (Core.ParseLevel (Level opt)); cbn; [|discriminate]. intros _.
  destruct (resolve_keeps_selectors opt) as (-> & _).
  destruct (engine_known (Engine opt)) eqn:E; cbn; [|reflexivity].
  apply resolve_keeps_selectors.
Qed.

Lemma normalized_engine_known (e : string) :
  engine_known (Spec.normalized_engine e) = true.
Proof.
  unfold Spec.normalized_engine. destruct (engine_known e) eqn:E; auto.
Qed.

(** C8: Validate returns an error exactly when the level string is none
    of the five recognised names; with a recognised level, an engine
    selector outside zap and slog is accepted and replaced by slog, and
    one inside the set is accepted and kept. *)
Theorem Validate_rejects_only_unparsable_level (opt : LogOption) :
  (snd (Validate opt) <> None <-> ~ Spec.level_recognised (Level opt)) /\
  (Spec.level_recognised (Level opt) -> engine_known (Engine opt) = false ->
     snd (Validate opt) = None /\ Engine (fst (Validate opt)) = "slog") /\
  (Spec.level_recognised (Level opt) -> engine_known (Engine opt) = true ->
     snd (Validate opt) = None /\ Engine (fst (Validate opt)) = Engine opt).
Proof.
  split; [apply Validate_err_iff|].
  assert (Hok : Spec.level_recognised (Level opt) -> snd (Validate opt) = None).
  { intros Hrec. destruct (snd (Validate opt)) eqn:E; [|reflexivity].
    exfalso. apply (proj1 (Validate_err_iff opt)); [congruence | exact Hrec]. }
  split; intros Hrec Heng; (split; [now apply Hok|]);
    rewrite (Validate_ok_engine opt (Hok Hrec));
    unfold Spec.normalized_engine; now rewrite Heng.
Qed.

Lemma Validate_rejects_only_unparsable_level_witness :
  snd (Validate (Samples.option_with "logrus" "INFO" "" None)) = None /\
  Engine (fst (Validate (Samples.option_with "logrus" "INFO" "" None))) = "slog".
Proof.
  destruct (Validate_rejects_only_unparsable_level
              (Samples.option_with "logrus" "INFO" "" None)) as (_ & H & _).
  apply H.
  - exists Core.InfoLevel. cbn. tauto.
  - reflexivity.
Defined.

Lemma resolve_set_Engine (e : string) (opt : LogOption) :
  resolveOTLPConfig (set_Engine e opt) = set_Engine e (resolveOTLPConfig opt).
Proof.
  unfold resolveOTLPConfig; cbn.
  destruct (negb _); [destruct (Enabled _) as [[|]|] |]; reflexivity.
Qed.

(** Validating an accepted option again changes nothing. *)
Lemma Validate_ok_idempotent (opt opt1 : LogOption) :
  Validate opt = (opt1, None) -> Validate opt1 = (opt1, None).
Proof.
  unfold Validate.
  destruct (Core.ParseLevel (Level opt)) as [lv|] eqn:P; [|discriminate].
  intros H. injection H as <-.
  set (r := resolveOTLPConfig opt).
  assert (Hr : resolveOTLPConfig r = r) by apply resolve_idempotent_LogOption.
  assert (Hl : Level r = Level opt) by apply resolve_keeps_selectors.
  destruct (engine_known (Engine r)) eqn:E; cbn.
  - rewrite Hl, P, Hr, E. reflexivity.
  - cbn. rewrite Hl, P. rewrite (resolve_set_Engine "slog" r), Hr. reflexivity.
Qed.

End Validation.

(** ** The factory *)

Section FactoryFacts.

Import OptionPkg.

Variable w : World.

Lemma NewZapLogger_keeps_validated (opt1 : LogOption) :
  Validate opt1 = (opt1, None) -> fst (Zap.NewZapLogger w opt1) = opt1.
Proof. intros H. unfold Zap.NewZapLogger. now rewrite H. Qed.

Lemma NewSlogLogger_keeps_validated (opt1 : LogOption) :
  Validate opt1 = (opt1, None) -> fst (Slog.NewSlogLogger w opt1) = opt1.
Proof. intros H. unfold Slog.NewSlogLogger. now rewrite H. Qed.

Lemma createZapLogger_eq (opt1 : LogOption) :
  Validate opt1 = (opt1, None) ->
  Factory.createZapLogger w opt1 = (opt1, Spec.construct w "zap" opt1).
Proof.
  intros H. unfold Spec.construct; cbn. unfold Factory.createZapLogger.
  pose proof (NewZapLogger_keeps_validated opt1 H) as F.
  destruct (Zap.NewZapLogger w opt1) as [o r]; cbn in *. now subst.
Qed.

Lemma createSlogLogger_eq (opt1 : LogOption) :
  Validate opt1 = (opt1, None) ->
  Factory.createSlogLogger w opt1 = (opt1, Spec.construct w "slog" opt1).
Proof.
  intros H. unfold Spec.construct; cbn. unfold Factory.createSlogLogger.
  pose proof (NewSlogLogger_keeps_validated opt1 H) as F.
  destruct (Slog.NewSlogLogger w opt1) as [o r]; cbn in *. now subst.
Qed.

(** What CreateLogger does once validation has passed. *)
Lemma CreateLogger_validated (opt opt1 : LogOption) :
  Validate opt = (opt1, None) ->
  Factory.CreateLogger w opt =
  match Spec.construct w (Engine opt1) opt1 with
  | Ok lg => Factory.mkOutcome opt1 [Engine opt1] (Ok lg)
  | Err _ =>
      Factory.mkOutcome opt1 [Engine opt1; Spec.alternate (Engine opt1)]
        (Spec.construct w (Spec.alternate (Engine opt1)) opt1)
  end.
Proof.
  intros H. pose proof (Validate_ok_idempotent opt opt1 H) as Hid.
  assert (Hk : engine_known (Engine opt1) = true).
  { pose proof (Validate_ok_engine opt) as He. rewrite H in He; cbn in He.
    rewrite (He eq_refl). apply normalized_engine_known. }
  unfold Factory.CreateLogger. rewrite H, Hk; cbn.
  apply engine_known_spec in Hk. destruct Hk as [Hz|Hs].
  - rewrite Hz in *. cbn. rewrite (createZapLogger_eq _ Hid).
    destruct (Spec.construct w "zap" opt1); [reflexivity|].
    now rewrite (createSlogLogger_eq _ Hid).
  - rewrite Hs in *. cbn. rewrite (createSlogLogger_eq _ Hid).
    destruct (Spec.construct w "slog" opt1); [reflexivity|].
    now rewrite (createZapLogger_eq _ Hid).
Qed.

(** C6: when validation fails, CreateLogger returns that error (wrapped
    as "invalid configuration") and runs no constructor.  When it
    passes, the constructor of the requested engine runs first; its
    logger is returned if it succeeds; if it fails the constructor of
    the other engine runs and its result is returned, so an error comes
    back only when both constructors fail. *)
Theorem CreateLogger_requested_then_alternate (opt : LogOption) :
  let out := Factory.CreateLogger w opt in
  let opt1 := fst (Validate opt) in
  let req := Engine opt1 in
  let alt := Spec.alternate req in
  (forall e, snd (Validate opt) = Some e ->
     Factory.attempts out = [] /\
     Factory.returned out = Err (ErrWrap "invalid configuration" e)) /\
  (snd (Validate opt) = None ->
     req = Spec.normalized_engine (Engine opt) /\
     (forall lg, Spec.construct w req opt1 = Ok lg ->
        Factory.attempts out = [req] /\ Factory.returned out = Ok lg) /\
     (forall e, Spec.construct w req opt1 = Err e ->
        Factory.attempts out = [req; alt] /\
        Factory.returned out = Spec.construct w alt opt1) /\
     (is_err (Factory.returned out) = true ->
        is_err (Spec.construct w req opt1) = true /\
        is_err (Spec.construct w alt opt1) = true)).
Proof.
  cbn zeta. split.
  - intros e He. unfold Factory.CreateLogger.
    destruct (Validate opt) as [o [e'|]]; cbn in *; [|discriminate].
    injection He as ->. auto.
  - intros Hok. split; [now apply Validate_ok_engine|].
    destruct (Validate opt) as [opt1 err] eqn:V; cbn in *. subst err.
    rewrite (CreateLogger_validated opt opt1 V).
    destruct (Spec.construct w (Engine opt1) opt1) as [lg|e] eqn:C; cbn.
    + repeat split; try congruence; discriminate.
    + repeat split; try congruence; discriminate.
Qed.

End FactoryFacts.

(** With zap unable to build, a request for zap returns a working slog
    logger after both constructors have run. *)
Lemma CreateLogger_requested_then_alternate_witness :
  Factory.attempts
    (Factory.CreateLogger Samples.zapBroken
       (Samples.option_with "zap" "INFO" "" None)) = ["zap"; "slog"] /\
  Factory.returned
    (Factory.CreateLogger Samples.zapBroken
       (Samples.option_with "zap" "INFO" "" None))
  = Spec.construct Samples.zapBroken "slog"
      (fst (OptionPkg.Validate (Samples.option_with "zap" "INFO" "" None))).
Proof.
  destruct (CreateLogger_requested_then_alternate Samples.zapBroken
              (Samples.option_with "zap" "INFO" "" None)) as (_ & H).
  destruct (H eq_refl) as (_ & _ & Halt & _).
  apply (Halt (ErrMsg "zap: cannot open sink")). reflexivity.
Defined.

(** ** The engine adapters *)

Section Traces.

Lemma In_andThen_l (e : event) (t1 t2 : list event) :
  In e t1 -> In e (andThen t1 t2).
Proof.
  unfold andThen. destruct (existsb is_exit t1); [auto|].
  intros H. apply in_or_app. now left.
Qed.

Lemma In_andThen_r (e : event) (t1 t2 : list event) :
  existsb is_exit t1 = false -> In e t2 -> In e (andThen t1 t2).
Proof.
  unfold andThen. intros -> H. apply in_or_app. now right.
Qed.

Lemma andThen_no_exit (t1 t2 : list event) :
  existsb is_exit t1 = false -> andThen t1 t2 = (t1 ++ t2)%list.
Proof. unfold andThen. now intros ->. Qed.

Lemma export_calls_app (t1 t2 : list event) :
  export_calls (t1 ++ t2) = (export_calls t1 + export_calls t2)%nat.
Proof. unfold export_calls. now rewrite List.filter_app, List.length_app. Qed.

Lemma export_calls_andThen_exit (t : list event) (code : Z) :
  export_calls (andThen t [EvExit code]) = export_calls t.
Proof.
  unfold andThen. destruct (existsb is_exit t); [reflexivity|].
  rewrite export_calls_app. cbn. lia.
Qed.

Lemma Slog_log_no_exit (h : Slog.Backend) (lvl : Z) (msg : string)
    (attrs : list (string * any)) :
  existsb is_exit (Slog.log h lvl msg attrs) = false.
Proof. unfold Slog.log. now destruct (lvl <? Slog.hLevel h). Qed.

Lemma Slog_log_no_export (h : Slog.Backend) (lvl : Z) (msg : string)
    (attrs : list (string * any)) :
  export_calls (Slog.log h lvl msg attrs) = 0%nat.
Proof. unfold Slog.log. now destruct (lvl <? Slog.hLevel h). Qed.

Lemma Zap_log_no_export (b : Zap.Backend) (lvl : Z) (msg : string)
    (fields : list (string * any)) :
  export_calls (Zap.log b lvl msg fields) = 0%nat.
Proof.
  unfold Zap.log.
  destruct (lvl <? Zap.zLevel b), (lvl =? Zap.FatalLevel); reflexivity.
Qed.

Lemma Zap_log_no_exit (b : Zap.Backend) (lvl : Z) (msg : string)
    (fields : list (string * any)) :
  lvl <> Zap.FatalLevel -> existsb is_exit (Zap.log b lvl msg fields) = false.
Proof.
  intros H. unfold Zap.log. apply Z.eqb_neq in H. rewrite H.
  now destruct (lvl <? Zap.zLevel b).
Qed.

Lemma SendLogRecord_head (n : Otlp.Net) (p : Otlp.LoggerProvider)
    (lvl : Core.Level) (msg : string) (a : gmap string any) :
  exists evs, fst (Otlp.SendLogRecord n p lvl msg a)
              = EvSendLogRecord lvl msg a :: evs.
Proof.
  unfold Otlp.SendLogRecord. destruct (Otlp.Export n (Otlp.client p)) as [evs err].
  now exists evs.
Qed.

Lemma withDynamicCallerSkip_level (w : World) (l : Zap.ZapLogger) :
  Zap.zLevel (Zap.logger (Zap.withDynamicCallerSkip w l)) = Zap.zLevel (Zap.logger l).
Proof. unfold Zap.withDynamicCallerSkip. now destruct (hasGlobalCall w). Qed.

(** The variadic and the printf methods of both adapters never reach
    the Export Client. *)
Lemma plain_call_never_exports (w : World) (l : Logger) (lvl : Core.Level)
    (c : convention) :
  Spec.plain c = true -> export_calls (call w l lvl c) = 0%nat.
Proof.
  intros Hc. destruct c; [| |discriminate];
    destruct l, lvl; cbv beta iota delta [call];
    unfold Slog.Debug, Slog.Info, Slog.Warn, Slog.Error, Slog.Fatal,
      Slog.Debugf, Slog.Infof, Slog.Warnf, Slog.Errorf, Slog.Fatalf,
      Zap.Debug, Zap.Info, Zap.Warn, Zap.Error, Zap.Fatal,
      Zap.Debugf, Zap.Infof, Zap.Warnf, Zap.Errorf, Zap.Fatalf;
    rewrite ?export_calls_andThen_exit;
    first [apply Slog_log_no_export | apply Zap_log_no_export].
Qed.

(** A key/value call on the slog adapter reaches the Export Client at
    every level, the configured minimum notwithstanding. *)
Lemma Slog_kv_call_exports (w : World) (l : Slog.SlogLogger)
    (p : Otlp.LoggerProvider) (lvl : Core.Level) (msg : string)
    (kv : list any) :
  Slog.otlpProvider l = Some p ->
  In (EvSendLogRecord lvl msg (Slog.otlpAttributes (Slog.mapper l) kv ∅))
     (call w (SlogImpl l) lvl (KeyValue msg kv)).
Proof.
  intros Hp.
  assert (Hs : forall lv, In (EvSendLogRecord lv msg
                                (Slog.otlpAttributes (Slog.mapper l) kv ∅))
                             (Slog.sendToOTLP w l lv msg kv)).
  { intros lv. unfold Slog.sendToOTLP. rewrite Hp.
    destruct (SendLogRecord_head (net w) p lv msg
                (Slog.otlpAttributes (Slog.mapper l) kv ∅)) as [evs ->].
    now left. }
  destruct lvl; cbv beta iota delta [call];
    unfold Slog.Debugw, Slog.Infow, Slog.Warnw, Slog.Errorw, Slog.Fatalw;
    first [ apply In_andThen_r; [apply Slog_log_no_exit | apply Hs]
          | apply In_andThen_l;
            apply In_andThen_r; [apply Slog_log_no_exit | apply Hs] ].
Qed.

(** So does one on the zap adapter, except that a fatal call ends the
    process inside zap before sendToOTLP is reached. *)
Lemma Zap_kv_call_exports (w : World) (l : Zap.ZapLogger)
    (p : Otlp.LoggerProvider) (lvl : Core.Level) (msg : string)
    (kv : list any) :
  Zap.otlpProvider l = Some p ->
  lvl <> Core.FatalLevel ->
  In (EvSendLogRecord lvl msg (Zap.otlpAttributes (Zap.mapper l) kv ∅))
     (call w (ZapImpl l) lvl (KeyValue msg kv)).
Proof.
  intros Hp Hlvl.
  assert (Hs : forall lv, In (EvSendLogRecord lv msg
                                (Zap.otlpAttributes (Zap.mapper l) kv ∅))
                             (Zap.sendToOTLP w l lv msg kv)).
  { intros lv. unfold Zap.sendToOTLP. rewrite Hp.
    destruct (SendLogRecord_head (net w) p lv msg
                (Zap.otlpAttributes (Zap.mapper l) kv ∅)) as [evs ->].
    now left. }
  destruct lvl; try congruence; cbv beta iota delta [call];
    unfold Zap.Debugw, Zap.Infow, Zap.Warnw, Zap.Errorw;
    (apply In_andThen_r; [apply Zap_log_no_exit; discriminate | apply Hs]).
Qed.

Lemma Zap_Fatalw_never_exports (w : World) (l : Zap.ZapLogger) (msg : string)
    (kv : list any) :
  export_calls (call w (ZapImpl l) Core.FatalLevel (KeyValue msg kv)) = 0%nat.
Proof.
  cbn. unfold Zap.Fatalw, andThen, Zap.log. cbn.
  destruct (_ <? _); reflexivity.
Qed.

(** Below the configured minimum, the variadic and the printf methods
    do nothing at all, with one exception: the slog handler of a logger
    configured at fatal filters at slog's error level, so an error call
    is still written. *)
Lemma below_level_plain_call_silent (w : World) (l : Logger)
    (lvl : Core.Level) (c : convention) :
  Spec.backend_level_consistent l ->
  Spec.plain c = true ->
  Core.level_ltb lvl (levelOf l) = true ->
  ~ (engineOf l = "slog" /\ levelOf l = Core.FatalLevel /\ lvl = Core.ErrorLevel) ->
  call w l lvl c = [].
Proof.
  intros Hcons Hc Hlt Hex.
  destruct c; [| |discriminate];
    destruct l as [l|l]; cbn in Hcons, Hlt, Hex;
    destruct lvl, (Slog.level l) eqn:Hs || destruct lvl, (Zap.level l) eqn:Hz;
    try discriminate Hlt;
    try (exfalso; apply Hex; now auto);
    cbn;
    unfold Slog.Debug, Slog.Info, Slog.Warn, Slog.Error,
      Slog.Debugf, Slog.Infof, Slog.Warnf, Slog.Errorf,
      Zap.Debug, Zap.Info, Zap.Warn, Zap.Error,
      Zap.Debugf, Zap.Infof, Zap.Warnf, Zap.Errorf,
      Slog.log, Zap.log;
    rewrite ?withDynamicCallerSkip_level, Hcons; reflexivity.
Qed.

Lemma slog_fatal_minimum_writes_error (w : World) (l : Slog.SlogLogger)
    (args : list any) :
  Spec.backend_level_consistent (SlogImpl l) ->
  Slog.level l = Core.FatalLevel ->
  exists attrs, call w (SlogImpl l) Core.ErrorLevel (Variadic args)
                = [EvWrite "slog" "ERROR" (Slog.formatArgs args) attrs].
Proof.
  cbn. intros Hc Hl. unfold Slog.Error, Slog.log. rewrite Hc, Hl. cbn.
  eexists. reflexivity.
Qed.

(** The constructors return level-consistent loggers. *)
Lemma NewSlogLogger_consistent (w : World) (opt : OptionPkg.LogOption)
    (l : Slog.SlogLogger) :
  snd (Slog.NewSlogLogger w opt) = Ok l ->
  Spec.backend_level_consistent (SlogImpl l).
Proof.
  unfold Slog.NewSlogLogger.
  destruct (OptionPkg.Validate opt) as [o [e|]]; cbn; [discriminate|].
  destruct (Core.ParseLevel _); cbn; [|discriminate].
  destruct (if OptionPkg.IsOTLPEnabled o then _ else _); cbn; [|discriminate].
  destruct (Slog.createOutputWriters _ _); cbn; [|discriminate].
  intros H. injection H as <-. reflexivity.
Qed.

Lemma NewZapLogger_consistent (w : World) (opt : OptionPkg.LogOption)
    (l : Zap.ZapLogger) :
  snd (Zap.NewZapLogger w opt) = Ok l ->
  Spec.backend_level_consistent (ZapImpl l).
Proof.
  unfold Zap.NewZapLogger.
  destruct (OptionPkg.Validate opt) as [o [e|]]; cbn; [discriminate|].
  destruct (Core.ParseLevel _); cbn; [|discriminate].
  destruct (if OptionPkg.IsOTLPEnabled o then _ else _); cbn; [|discriminate].
  destruct (zapBuild _ _ _); cbn; [discriminate|].
  intros H. injection H as <-. reflexivity.
Qed.

(** The sample loggers are the ones the constructors return. *)
Lemma samples_constructed :
  snd (Slog.NewSlogLogger Samples.calm
         (Samples.option_with "slog" "INFO" "localhost:4317" None))
  = Ok Samples.slogInfo /\
  snd (Zap.NewZapLogger Samples.calm
         (Samples.option_with "zap" "INFO" "localhost:4317" None))
  = Ok Samples.zapInfo.
Proof. split; reflexivity. Qed.

End Traces.

(** ** Level filtering and the export path *)

Section ExportPath.

(** C3: the code at a failing input.  The loggers that the two
    constructors return for level INFO with export to localhost:4317
    are given a debug call in the key/value convention, which is below
    their minimum: nothing is written locally, yet SendLogRecord is
    called once and the record goes out over gRPC. *)
Theorem below_minimum_Debugw_reaches_export_client :
  exists (ls : Slog.SlogLogger) (lz : Zap.ZapLogger),
    snd (Slog.NewSlogLogger Samples.calm
           (Samples.option_with "slog" "INFO" "localhost:4317" None)) = Ok ls /\
    snd (Zap.NewZapLogger Samples.calm
           (Samples.option_with "zap" "INFO" "localhost:4317" None)) = Ok lz /\
    Core.level_ltb Core.DebugLevel (levelOf (SlogImpl ls)) = true /\
    call Samples.calm (SlogImpl ls) Core.DebugLevel
      (KeyValue "m" [AString "k"; AString "v"])
    = [EvSendLogRecord Core.DebugLevel "m" {[ "k" := AString "v" ]};
       EvGRPCExport "localhost:4317"] /\
    Core.level_ltb Core.DebugLevel (levelOf (ZapImpl lz)) = true /\
    call Samples.calm (ZapImpl lz) Core.DebugLevel
      (KeyValue "m" [AString "k"; AString "v"])
    = [EvSendLogRecord Core.DebugLevel "m" {[ "k" := AString "v" ]};
       EvGRPCExport "localhost:4317"].
Proof. exists Samples.slogInfo, Samples.zapInfo. repeat split. Qed.

(** C4: the code at a failing input.  The same loggers, export active,
    are given an info call in the variadic and in the printf
    convention, at their minimum level: the record is written locally
    and the Export Client is never called. *)
Theorem Info_and_Infof_written_but_not_exported :
  exists (ls : Slog.SlogLogger) (lz : Zap.ZapLogger),
    snd (Slog.NewSlogLogger Samples.calm
           (Samples.option_with "slog" "INFO" "localhost:4317" None)) = Ok ls /\
    snd (Zap.NewZapLogger Samples.calm
           (Samples.option_with "zap" "INFO" "localhost:4317" None)) = Ok lz /\
    OptionPkg.IsOTLPEnabled
      (fst (OptionPkg.Validate
              (Samples.option_with "slog" "INFO" "localhost:4317" None))) = true /\
    providerOf (SlogImpl ls) = Some Samples.provider /\
    providerOf (ZapImpl lz) = Some Samples.provider /\
    Core.level_leb (levelOf (SlogImpl ls)) Core.InfoLevel = true /\
    Core.level_leb (levelOf (ZapImpl lz)) Core.InfoLevel = true /\
    call Samples.calm (SlogImpl ls) Core.InfoLevel (Variadic [AString "hello"])
    = [EvWrite "slog" "INFO" "hello"
         [("engine", AString "slog"); ("caller", AString "app/main.go:42")]] /\
    call Samples.calm (SlogImpl ls) Core.InfoLevel (Printf "hello" [])
    = [EvWrite "slog" "INFO" "hello"
         [("engine", AString "slog"); ("caller", AString "app/main.go:42")]] /\
    call Samples.calm (ZapImpl lz) Core.InfoLevel (Variadic [AString "hello"])
    = [EvWrite "zap" "info" "hello" [("engine", AString "zap")]] /\
    call Samples.calm (ZapImpl lz) Core.InfoLevel (Printf "hello" [])
    = [EvWrite "zap" "info" "hello" [("engine", AString "zap")]].
Proof. exists Samples.slogInfo, Samples.zapInfo. repeat split. Qed.

(** The part of C4 that the code does have: on the slog adapter an
    enabled key/value call is written locally and then exported. *)
Lemma Slog_Infow_written_and_exported (w : World) (l : Slog.SlogLogger)
    (p : Otlp.LoggerProvider) (msg : string) (kv : list any) :
  Slog.otlpProvider l = Some p ->
  Slog.hLevel (Slog.logger l) <= Slog.LevelInfo ->
  exists attrs evs,
    call w (SlogImpl l) Core.InfoLevel (KeyValue msg kv)
    = (EvWrite "slog" "INFO" msg attrs
         :: EvSendLogRecord Core.InfoLevel msg
              (Slog.otlpAttributes (Slog.mapper l) kv ∅) :: evs)%list.
Proof.
  intros Hp Hl. cbv beta iota delta [call]. unfold Slog.Infow.
  rewrite andThen_no_exit by apply Slog_log_no_exit.
  unfold Slog.log, Slog.sendToOTLP. rewrite Hp.
  destruct (Slog.LevelInfo <? Slog.hLevel (Slog.logger l)) eqn:E;
    [apply Z.ltb_lt in E; lia|].
  destruct (SendLogRecord_head (net w) p Core.InfoLevel msg
              (Slog.otlpAttributes (Slog.mapper l) kv ∅)) as [evs ->].
  unfold Slog.Handle. cbn. eauto.
Qed.

End ExportPath.

(** ** A last key without a value *)

Section OddKey.

Import Fields.

(** Induction over argument lists two at a time. *)
Lemma pairs_ind (P : list any -> Prop) :
  P [] ->
  (forall a b l, P l -> P (a :: b :: l)) ->
  forall l, Nat.even (List.length l) = true -> P l.
Proof.
  intros H0 H2. fix IH 1. intros [|a [|b l]] H.
  - exact H0.
  - discriminate H.
  - apply H2, IH, H.
Qed.

(** The local path of the slog adapter keeps the last key. *)
Lemma convertToSlogAttrs_odd (m : FieldMapper) (k : any) (kvs : list any) :
  Nat.even (List.length kvs) = true ->
  Slog.convertToSlogAttrs m (kvs ++ [k])
  = (Slog.convertToSlogAttrs m kvs ++ [(anyToString k, ANil)])%list.
Proof.
  revert kvs. apply pairs_ind; [reflexivity|].
  intros a b l IH. cbn [app Slog.convertToSlogAttrs].
  now rewrite IH.
Qed.

(** The local path of the zap adapter keeps it as well, under its
    standard name. *)
Lemma standardizeFields_odd (m : FieldMapper) (k : any) (kvs : list any) :
  Nat.even (List.length kvs) = true ->
  Zap.sweetenFields (Zap.standardizeFields m (kvs ++ [k]))
  = (Zap.sweetenFields (Zap.standardizeFields m kvs)
       ++ [(getStandardFieldName m (anyToString k), ANil)])%list.
Proof.
  revert kvs. apply pairs_ind; [reflexivity|].
  intros a b l IH. cbn [app Zap.standardizeFields Zap.sweetenFields].
  now rewrite IH.
Qed.

(** The export path of either adapter builds the same attribute map
    with and without the last key: the key is dropped. *)
Lemma otlpAttributes_odd (m : FieldMapper) (k : any) (kvs : list any) :
  Nat.even (List.length kvs) = true ->
  forall acc,
    Slog.otlpAttributes m (kvs ++ [k]) acc = Slog.otlpAttributes m kvs acc /\
    Zap.otlpAttributes m (kvs ++ [k]) acc = Zap.otlpAttributes m kvs acc.
Proof.
  revert kvs.
  apply (pairs_ind (fun kvs => forall acc,
           Slog.otlpAttributes m (kvs ++ [k]) acc = Slog.otlpAttributes m kvs acc /\
           Zap.otlpAttributes m (kvs ++ [k]) acc = Zap.otlpAttributes m kvs acc)).
  - intros acc. split; reflexivity.
  - intros a b l IH acc. cbn [app Slog.otlpAttributes Zap.otlpAttributes].
    apply IH.
Qed.

Lemma In_andThen_inv (e : event) (t1 t2 : list event) :
  In e (andThen t1 t2) -> In e t1 \/ In e t2.
Proof.
  unfold andThen. destruct (existsb is_exit t1); [now left|].
  apply in_app_or.
Qed.

Lemma SendLogRecord_no_write (n : Otlp.Net) (p : Otlp.LoggerProvider)
    (lvl : Core.Level) (msg : string) (a : gmap string any) (e : event) :
  In e (fst (Otlp.SendLogRecord n p lvl msg a)) -> is_write e = false.
Proof.
  unfold Otlp.SendLogRecord, Otlp.Export, Otlp.exportGRPC, Otlp.exportHTTP.
  repeat match goal with
         | |- context [if ?b then _ else _] => destruct b
         | |- context [match Otlp.httpDo ?x ?y with _ => _ end] =>
             destruct (Otlp.httpDo x y)
         end; cbn; intuition (subst; reflexivity).
Qed.

Lemma Slog_log_write_attrs (h : Slog.Backend) (lv : Z) (msg0 : string)
    (attrs0 : list (string * any)) (eng ls msg : string)
    (attrs : list (string * any)) (key : string) (v : any) :
  In (EvWrite eng ls msg attrs) (Slog.log h lv msg0 attrs0) ->
  In (key, v) attrs0 ->
  In (getStandardFieldName (Slog.hMapper h) key, v) attrs.
Proof.
  unfold Slog.log, Slog.Handle. destruct (lv <? Slog.hLevel h); [contradiction|].
  intros [H|[]] Hin. injection H as _ _ _ <-.
  apply in_or_app. right. right.
  apply (in_map (fun kv => (getStandardFieldName (Slog.hMapper h) (fst kv), snd kv))
           _ _ Hin).
Qed.

Lemma Zap_log_write_attrs (b : Zap.Backend) (lv : Z) (msg0 : string)
    (fields : list (string * any)) (eng ls msg : string)
    (attrs : list (string * any)) (kv : string * any) :
  In (EvWrite eng ls msg attrs) (Zap.log b lv msg0 fields) ->
  In kv fields -> In kv attrs.
Proof.
  unfold Zap.log.
  destruct (lv <? Zap.zLevel b), (lv =? Zap.FatalLevel); cbn;
    intros H Hin; intuition (try discriminate);
    match goal with H : EvWrite _ _ _ _ = _ |- _ => injection H as _ _ _ <- end;
    apply in_or_app; now right.
Qed.

(** Whenever a key/value call with an odd number of arguments writes a
    record locally, on either adapter and at any of the five levels,
    the record carries the last key with a nil value. *)
Lemma odd_key_in_every_local_record (w : World) (l : Logger)
    (lvl : Core.Level) (msg : string) (kvs : list any) (k : any)
    (eng ls m : string) (attrs : list (string * any)) :
  Nat.even (List.length kvs) = true ->
  In (EvWrite eng ls m attrs) (call w l lvl (KeyValue msg (kvs ++ [k]))) ->
  exists name, In (name, ANil) attrs /\
    name = match l with
           | SlogImpl l =>
               getStandardFieldName (Slog.hMapper (Slog.logger l)) (anyToString k)
           | ZapImpl l => getStandardFieldName (Zap.mapper l) (anyToString k)
           end.
Proof.
  intros Hev Hin. eexists; split; [|reflexivity].
  destruct l as [l|l].
  - assert (Hk : forall rest,
               In (anyToString k, ANil)
                  (Slog.convertToSlogAttrs (Slog.mapper l) (kvs ++ [k]) ++ rest)).
    { intros rest. rewrite convertToSlogAttrs_odd by exact Hev.
      apply in_or_app. left. apply in_or_app. right. now left. }
    destruct lvl; cbv beta iota delta [call] in Hin;
      unfold Slog.Debugw, Slog.Infow, Slog.Warnw, Slog.Errorw, Slog.Fatalw in Hin;
      repeat (apply In_andThen_inv in Hin as [Hin|Hin]);
      try (eapply Slog_log_write_attrs; [exact Hin | apply Hk]);
      try (unfold Slog.sendToOTLP in Hin;
           destruct (Slog.otlpProvider l); [|contradiction];
           apply SendLogRecord_no_write in Hin; discriminate);
      try (destruct Hin as [Hin|[]]; discriminate).
  - assert (Hk : forall m0,
               In (getStandardFieldName m0 (anyToString k), ANil)
                  (Zap.sweetenFields (Zap.standardizeFields m0 (kvs ++ [k])))).
    { intros m0. rewrite standardizeFields_odd by exact Hev.
      apply in_or_app. right. now left. }
    assert (Hm : Zap.mapper (Zap.withDynamicCallerSkip w l) = Zap.mapper l).
    { unfold Zap.withDynamicCallerSkip. now destruct (hasGlobalCall w). }
    destruct lvl; cbv beta iota delta [call] in Hin;
      unfold Zap.Debugw, Zap.Infow, Zap.Warnw, Zap.Errorw, Zap.Fatalw in Hin;
      apply In_andThen_inv in Hin as [Hin|Hin];
      try (rewrite <- Hm; eapply Zap_log_write_attrs; [exact Hin | apply Hk]);
      unfold Zap.sendToOTLP in Hin;
      (destruct (Zap.otlpProvider l); [|contradiction]);
      apply SendLogRecord_no_write in Hin; discriminate.
Qed.

(** C5: the code at a failing input.  An info call in the key/value
    convention with the single key "user", on the loggers that the two
    constructors return with export active, writes that key locally
    with a nil value, but the attribute map handed to the Export Client
    is empty: the key is silently dropped on the export path. *)
Theorem odd_key_written_locally_dropped_from_export :
  exists (ls : Slog.SlogLogger) (lz : Zap.ZapLogger),
    snd (Slog.NewSlogLogger Samples.calm
           (Samples.option_with "slog" "INFO" "localhost:4317" None)) = Ok ls /\
    snd (Zap.NewZapLogger Samples.calm
           (Samples.option_with "zap" "INFO" "localhost:4317" None)) = Ok lz /\
    In ("user", ANil)
       (Spec.written_attrs
          (call Samples.calm (SlogImpl ls) Core.InfoLevel
             (KeyValue "m" [AString "user"]))) /\
    Spec.exported_maps
      (call Samples.calm (SlogImpl ls) Core.InfoLevel
         (KeyValue "m" [AString "user"])) = [∅] /\
    In ("user", ANil)
       (Spec.written_attrs
          (call Samples.calm (ZapImpl lz) Core.InfoLevel
             (KeyValue "m" [AString "user"]))) /\
    Spec.exported_maps
      (call Samples.calm (ZapImpl lz) Core.InfoLevel
         (KeyValue "m" [AString "user"])) = [∅].
Proof.
  exists Samples.slogInfo, Samples.zapInfo. repeat split; cbn; tauto.
Qed.

End OddKey.

(** ** The HTTP request URL *)

Section RequestURL.

Lemma HasPrefix_app (p r : string) : Otlp.HasPrefix (p ++ r) p = true.
Proof.
  induction p as [|a p IH]; [reflexivity|].
  change (Ascii.eqb a a && Otlp.HasPrefix (p ++ r) p = true).
  now rewrite Ascii.eqb_refl, IH.
Qed.

Lemma HasPrefix_inv (s p : string) :
  Otlp.HasPrefix s p = true -> exists r, s = p ++ r.
Proof.
  revert s. induction p as [|a p IH]; intros s H.
  - now exists s.
  - destruct s as [|b s]; [discriminate|]. cbn in H.
    apply andb_true_iff in H as [E H]. apply Ascii.eqb_eq in E. subst b.
    destruct (IH s H) as [r ->]. now exists r.
Qed.

(** Every request that exportHTTP sends goes to exportHTTP_url. *)
Lemma exportHTTP_posts_to_url (n : Otlp.Net) (c : Otlp.OTLPClient)
    (url : string) (hs : list (string * string)) :
  In (EvHTTPPost url hs) (fst (Otlp.exportHTTP n c)) ->
  url = Otlp.exportHTTP_url c.
Proof.
  unfold Otlp.exportHTTP.
  destruct (Otlp.marshalFails n); [contradiction|].
  destruct (Otlp.newRequestFails n _); [contradiction|].
  destruct (Otlp.httpDo n _) as [st|e]; [destruct (_ || _)|]; cbn;
    intros [H|[]]; congruence.
Qed.

(** On an http:// or https:// endpoint, and on a bare endpoint that
    does not begin with the letters http, the code and the
    specification's wording give the same URL. *)
Lemma exportHTTP_url_agrees (c : Otlp.OTLPClient) :
  (Otlp.HasPrefix (Otlp.endpoint c) "http://" = true \/
   Otlp.HasPrefix (Otlp.endpoint c) "https://" = true \/
   (Otlp.HasPrefix (Otlp.endpoint c) "http" = false /\
    Spec.has_scheme (Otlp.endpoint c) = false)) ->
  Otlp.exportHTTP_url c = Spec.request_url (Otlp.endpoint c).
Proof.
  unfold Otlp.exportHTTP_url, Spec.request_url, Spec.has_scheme.
  intros [H|[H|[H1 H2]]].
  - apply HasPrefix_inv in H as [r ->]. reflexivity.
  - apply HasPrefix_inv in H as [r ->]. reflexivity.
  - now rewrite H1, H2.
Qed.

(** An endpoint with a scheme other than http or https is not taken
    literally either. *)
Lemma exportHTTP_other_scheme_example :
  Spec.has_scheme "unix://collector.sock" = true /\
  Otlp.exportHTTP_url (Samples.httpClient "unix://collector.sock")
  = "http://unix://collector.sock/v1/logs".
Proof. split; reflexivity. Qed.

(** C9: the code at a failing input.  The endpoint httpbin.org:4318 is
    a bare host:port with no scheme; the specification's wording gives
    http://httpbin.org:4318/v1/logs, but the request goes to the
    literal endpoint, because the code tests for the prefix http. *)
Theorem exportHTTP_bare_host_beginning_with_http :
  Otlp.NewOTLPClient (net Samples.calm)
    (OptionPkg.mkOTLPOption (Some true) "httpbin.org:4318" "http"
       (10 * OptionPkg.Second) ∅ false)
  = Ok (Samples.httpClient "httpbin.org:4318") /\
  Spec.has_scheme "httpbin.org:4318" = false /\
  Spec.request_url "httpbin.org:4318" = "http://httpbin.org:4318/v1/logs" /\
  Otlp.exportHTTP_url (Samples.httpClient "httpbin.org:4318")
  = "httpbin.org:4318" /\
  fst (Otlp.Export (net Samples.calm) (Samples.httpClient "httpbin.org:4318"))
  = [EvHTTPPost "httpbin.org:4318"
       [("Content-Type", "application/x-protobuf");
        ("User-Agent", "kart-io-logger/1.0.0")]].
Proof. repeat split. Qed.

End RequestURL.

(** * Further properties of the code *)

(** ** The resolvers beyond the precedence rules *)

Section ResolverFacts.

Import OptionPkg.

Lemma nestedOf_resolved (opt : LogOption) :
  OTLP (resolveOTLPConfig opt) = Some (Relate.nestedOf (resolveOTLPConfig opt)).
Proof.
  unfold Relate.nestedOf, resolveOTLPConfig.
  destruct (negb _); [destruct (Enabled _) as [[|]|] |]; reflexivity.
Qed.

(** X1: after resolveOTLPConfig a nested setting whose enabled flag is
    true never has an empty protocol or a zero timeout, whether the
    flag was set by hand or by auto-detection. *)
Theorem enabled_after_resolution_has_protocol_and_timeout
    (opt : LogOption) (o' : OTLPOption) :
  OTLP (resolveOTLPConfig opt) = Some o' ->
  Enabled o' = Some true ->
  Protocol o' <> "" /\ Timeout o' <> 0.
Proof.
  destruct opt as [eng lv fmt paths flat [[[[|]|] ep pr to hd ins]|] dev dc ds];
    unfold resolveOTLPConfig, applyEnabledDefaults; cbn.
  all: destruct (String.eqb flat "") eqn:Hflat; cbn.
  all: try destruct (String.eqb ep "") eqn:Hep; cbn.
  all: try destruct (String.eqb pr "") eqn:Hpr; cbn.
  all: try destruct (Z.eqb to 0) eqn:Hto; cbn.
  all: intros H; injection H as <-; cbn; intros He; try discriminate He.
  all: split;
    first [ discriminate
          | now apply String.eqb_neq
          | now apply Z.eqb_neq ].
Qed.

Lemma enabled_after_resolution_has_protocol_and_timeout_witness :
  Protocol (Relate.nestedOf (resolveOTLPConfig Samples.bothOption)) <> "" /\
  Timeout (Relate.nestedOf (resolveOTLPConfig Samples.bothOption)) <> 0.
Proof.
  apply (enabled_after_resolution_has_protocol_and_timeout Samples.bothOption);
    reflexivity.
Defined.

(** X2: with no flattened endpoint, a nested endpoint alone switches
    export on when the enabled flag is unset, and the nested endpoint
    stays as given. *)
Theorem nested_endpoint_alone_enables (opt : LogOption) (o : OTLPOption) :
  OTLPEndpoint opt = "" ->
  OTLP opt = Some o ->
  Enabled o = None ->
  Endpoint o <> "" ->
  IsOTLPEnabled (resolveOTLPConfig opt) = true /\
  Endpoint (Relate.nestedOf (resolveOTLPConfig opt)) = Endpoint o.
Proof.
  intros Hflat Ho Hen Hep. apply eqb_empty_false in Hep.
  unfold resolveOTLPConfig, IsOTLPEnabled, Relate.nestedOf.
  rewrite Hflat, Ho, Hen, Hep. cbn.
  unfold applyEnabledDefaults; cbn.
  repeat match goal with |- context [if ?b then _ else _] => destruct b eqn:? end;
    cbn; rewrite ?Hep; auto.
Qed.

Lemma nested_endpoint_alone_enables_witness :
  IsOTLPEnabled
    (resolveOTLPConfig
       (Samples.option_with "slog" "INFO" ""
          (Some (Samples.nested_with None "http://localhost:4317")))) = true /\
  Endpoint
    (Relate.nestedOf
       (resolveOTLPConfig
          (Samples.option_with "slog" "INFO" ""
             (Some (Samples.nested_with None "http://localhost:4317")))))
  = "http://localhost:4317".
Proof.
  apply (nested_endpoint_alone_enables
           (Samples.option_with "slog" "INFO" ""
              (Some (Samples.nested_with None "http://localhost:4317")))
           (Samples.nested_with None "http://localhost:4317"));
    first [reflexivity | discriminate].
Defined.

(** X3: with no endpoint anywhere, export is off after resolution even
    when the enabled flag was set to true by hand. *)
Theorem no_endpoint_means_disabled (opt : LogOption) :
  OTLPEndpoint opt = "" ->
  Endpoint (Relate.nestedOf opt) = "" ->
  IsOTLPEnabled (resolveOTLPConfig opt) = false.
Proof.
  intros Hflat Hep. unfold Relate.nestedOf in Hep.
  unfold resolveOTLPConfig, IsOTLPEnabled. rewrite Hflat. cbn.
  destruct (OTLP opt) as [[[[|]|] ep pr to hd ins]|]; cbn in *; subst;
    unfold applyEnabledDefaults; cbn;
    repeat match goal with |- context [if ?b then _ else _] => destruct b end;
    reflexivity.
Qed.

Lemma no_endpoint_means_disabled_witness :
  IsOTLPEnabled
    (resolveOTLPConfig
       (Samples.option_with "slog" "INFO" ""
          (Some (Samples.nested_with (Some true) "")))) = false.
Proof.
  apply (no_endpoint_means_disabled
           (Samples.option_with "slog" "INFO" ""
              (Some (Samples.nested_with (Some true) ""))));
    reflexivity.
Defined.

(** X4: an option whose nested setting says enabled = false comes out
    of resolveOTLPConfig exactly as it went in: no endpoint is copied
    and no default is filled. *)
Theorem explicitly_disabled_option_untouched (opt : LogOption) (o : OTLPOption) :
  OTLP opt = Some o ->
  Enabled o = Some false ->
  resolveOTLPConfig opt = opt.
Proof.
  destruct opt as [eng lv fmt paths flat nested dev dc ds]; cbn.
  intros -> Hen. destruct o as [en ep pr to hd ins]; cbn in Hen; subst en.
  unfold resolveOTLPConfig, applyEnabledDefaults; cbn.
  now destruct (negb _).
Qed.

Lemma explicitly_disabled_option_untouched_witness :
  resolveOTLPConfig Samples.disabledOption = Samples.disabledOption.
Proof.
  apply (explicitly_disabled_option_untouched Samples.disabledOption
           (Samples.nested_with (Some false) "http://nested:4317"));
    reflexivity.
Defined.

(** X5: resolution never switches off an export that was already on:
    if IsOTLPEnabled holds before resolveOTLPConfig it holds after. *)
Theorem resolution_keeps_export_enabled (opt : LogOption) :
  IsOTLPEnabled opt = true ->
  IsOTLPEnabled (resolveOTLPConfig opt) = true.
Proof.
  unfold IsOTLPEnabled at 1.
  destruct opt as [eng lv fmt paths flat [[[[|]|] ep pr to hd ins]|] dev dc ds];
    cbn; try discriminate.
  intros Hep. unfold resolveOTLPConfig, IsOTLPEnabled, applyEnabledDefaults; cbn.
  destruct (String.eqb flat "") eqn:Hflat; cbn;
    repeat match goal with |- context [if ?b then _ else _] => destruct b end;
    cbn; rewrite ?Hflat; auto.
Qed.

Lemma resolution_keeps_export_enabled_witness :
  IsOTLPEnabled
    (resolveOTLPConfig
       (Samples.option_with "slog" "INFO" ""
          (Some (Samples.nested_with (Some true) "collector:4317")))) = true.
Proof.
  apply (resolution_keeps_export_enabled
           (Samples.option_with "slog" "INFO" ""
              (Some (Samples.nested_with (Some true) "collector:4317"))));
    reflexivity.
Defined.

(** X6: resolveOTLPConfig writes to the nested enabled flag, endpoint,
    protocol and timeout only: every other field of the option, and the
    headers and the insecure flag of the nested setting, are as
    before. *)
Theorem resolution_frame (opt : LogOption) :
  Engine (resolveOTLPConfig opt) = Engine opt /\
  Level (resolveOTLPConfig opt) = Level opt /\
  Format (resolveOTLPConfig opt) = Format opt /\
  OutputPaths (resolveOTLPConfig opt) = OutputPaths opt /\
  OTLPEndpoint (resolveOTLPConfig opt) = OTLPEndpoint opt /\
  Development (resolveOTLPConfig opt) = Development opt /\
  DisableCaller (resolveOTLPConfig opt) = DisableCaller opt /\
  DisableStacktrace (resolveOTLPConfig opt) = DisableStacktrace opt /\
  Headers (Relate.nestedOf (resolveOTLPConfig opt)) = Headers (Relate.nestedOf opt) /\
  Insecure (Relate.nestedOf (resolveOTLPConfig opt)) = Insecure (Relate.nestedOf opt).
Proof.
  destruct opt as [eng lv fmt paths flat [[[[|]|] ep pr to hd ins]|] dev dc ds];
    unfold resolveOTLPConfig, applyEnabledDefaults, Relate.nestedOf; cbn;
    repeat match goal with |- context [if ?b then _ else _] => destruct b end;
    cbn; repeat split; reflexivity.
Qed.

(** X7: the LogOption resolver and the Config resolver give the same
    result on the same fields unless both endpoints are set to
    different values and export is not switched off by hand. *)
Theorem resolvers_agree_unless_endpoints_conflict (opt : LogOption) :
  OTLPEndpoint opt = "" \/
  Endpoint (Relate.nestedOf opt) = "" \/
  Enabled (Relate.nestedOf opt) = Some false \/
  Endpoint (Relate.nestedOf opt) = OTLPEndpoint opt ->
  Relate.toConfig (resolveOTLPConfig opt)
  = ConfigPkg.resolveOTLPConfig (Relate.toConfig opt).
Proof.
  destruct opt as [eng lv fmt paths flat [[[[|]|] ep pr to hd ins]|] dev dc ds];
    unfold Relate.nestedOf, Relate.toConfig, Relate.nestedConfig,
      resolveOTLPConfig, ConfigPkg.resolveOTLPConfig,
      applyEnabledDefaults, ConfigPkg.applyEnabledDefaults; cbn.
  all: intros H.
  all: destruct (String.eqb flat "") eqn:Hflat; cbn.
  all: try destruct (String.eqb ep "") eqn:Hep; cbn.
  all: try destruct (String.eqb pr "") eqn:Hpr; cbn.
  all: try destruct (Z.eqb to 0) eqn:Hto; cbn.
  all: rewrite ?Hflat, ?Hep, ?Hpr, ?Hto; cbn; try reflexivity.
  all: try (apply eqb_empty_true in Hep; subst ep; reflexivity).
  all: destruct H as [H|[H|[H|H]]]; try discriminate H; subst;
       try reflexivity; cbn in *; congruence.
Qed.

Lemma resolvers_agree_unless_endpoints_conflict_witness :
  Relate.toConfig (resolveOTLPConfig Samples.flatOnlyOption)
  = ConfigPkg.resolveOTLPConfig (Relate.toConfig Samples.flatOnlyOption).
Proof.
  apply (resolvers_agree_unless_endpoints_conflict Samples.flatOnlyOption).
  right. left. reflexivity.
Defined.

(** X8: an option that Validate has accepted is a fixed point of
    Validate: validating it again returns it unchanged and without
    error, so the repeated calls in the factory and in the constructors
    do no harm. *)
Theorem Validate_accepted_is_fixed_point (opt : LogOption) :
  snd (Validate opt) = None ->
  Validate (fst (Validate opt)) = (fst (Validate opt), None).
Proof.
  intros H. destruct (Validate opt) as [opt1 err] eqn:V. cbn in *. subst err.
  exact (Validate_ok_idempotent opt opt1 V).
Qed.

Lemma Validate_accepted_is_fixed_point_witness :
  Validate (fst (Validate Samples.bothOption))
  = (fst (Validate Samples.bothOption), None).
Proof.
  apply (Validate_accepted_is_fixed_point Samples.bothOption). reflexivity.
Defined.

(** X9: UpdateOption swaps the held option only when the new one
    validates.  With an unrecognised level the held option stays and
    the error comes back wrapped; with a recognised level the held
    option becomes the validated new one, whose engine is zap or
    slog. *)
Theorem UpdateOption_transactional (held opt : LogOption) :
  (~ Spec.level_recognised (Level opt) ->
     fst (Factory.UpdateOption held opt) = held /\
     exists e, snd (Factory.UpdateOption held opt)
               = Some (ErrWrap "invalid configuration update" e)) /\
  (Spec.level_recognised (Level opt) ->
     Factory.UpdateOption held opt = (fst (Validate opt), None) /\
     engine_known (Engine (fst (Factory.UpdateOption held opt))) = true).
Proof.
  pose proof (Validate_err_iff opt) as Hiff.
  unfold Factory.UpdateOption.
  destruct (Validate opt) as [opt1 [e|]] eqn:V; cbn in *.
  - split.
    + intros _. split; [reflexivity | now exists e].
    + intros Hrec. exfalso. apply (proj1 Hiff); [discriminate | exact Hrec].
  - split.
    + intros Hn. exfalso. apply (proj2 Hiff) in Hn. now apply Hn.
    + intros _. split; [reflexivity|].
      pose proof (Validate_ok_engine opt) as He. rewrite V in He. cbn in He.
      rewrite (He eq_refl). apply normalized_engine_known.
Qed.

Lemma UpdateOption_transactional_witness :
  fst (Factory.UpdateOption DefaultLogOption
         (Samples.option_with "slog" "INVALID_LEVEL" "" None))
  = DefaultLogOption /\
  exists e, snd (Factory.UpdateOption DefaultLogOption
                   (Samples.option_with "slog" "INVALID_LEVEL" "" None))
            = Some (ErrWrap "invalid configuration update" e).
Proof.
  destruct (UpdateOption_transactional DefaultLogOption
              (Samples.option_with "slog" "INVALID_LEVEL" "" None)) as (H & _).
  apply H. intros [l Hl]. cbn in Hl.
  repeat destruct Hl as [Hl|Hl]; try discriminate Hl; contradiction.
Defined.

End ResolverFacts.

(** ** The factory and the process-wide handle *)

Section FactoryMore.

Import OptionPkg.

Lemma construct_engine (w : World) (e : string) (opt : LogOption) (lg : Logger) :
  engine_known e = true ->
  Spec.construct w e opt = Ok lg -> engineOf lg = e.
Proof.
  intros Hk. apply engine_known_spec in Hk. unfold Spec.construct.
  destruct Hk as [-> | ->]; cbn;
    unfold Factory.createZapLogger, Factory.createSlogLogger.
  - destruct (Zap.NewZapLogger w opt) as [o [l|e]]; cbn; [|discriminate].
    now intros H; injection H as <-.
  - destruct (Slog.NewSlogLogger w opt) as [o [l|e]]; cbn; [|discriminate].
    now intros H; injection H as <-.
Qed.

Lemma Validate_ok_engine_known (opt opt1 : LogOption) :
  Validate opt = (opt1, None) -> engine_known (Engine opt1) = true.
Proof.
  intros V. pose proof (Validate_ok_engine opt) as He. rewrite V in He.
  cbn in He. rewrite (He eq_refl). apply normalized_engine_known.
Qed.

Lemma alternate_known (e : string) : engine_known (Spec.alternate e) = true.
Proof. unfold Spec.alternate. now destruct (String.eqb e "zap"). Qed.

(** X10: whatever happens in CreateLogger, the option the factory holds
    afterwards is the option as Validate leaves it: normalized when
    validation passes, untouched when it fails; the constructors add
    nothing. *)
Theorem CreateLogger_leaves_validated_option (w : World) (opt : LogOption) :
  Factory.option_after (Factory.CreateLogger w opt) = fst (Validate opt).
Proof.
  destruct (Validate opt) as [opt1 [e|]] eqn:V; cbn.
  - unfold Factory.CreateLogger. now rewrite V.
  - rewrite (CreateLogger_validated w opt opt1 V).
    now destruct (Spec.construct w (Engine opt1) opt1).
Qed.

(** X11: a logger returned by CreateLogger is of the engine attempted
    last, and the engine attempted first is the validated selector. *)
Theorem CreateLogger_returns_last_attempted_engine
    (w : World) (opt : LogOption) (lg : Logger) :
  Factory.returned (Factory.CreateLogger w opt) = Ok lg ->
  List.last (Factory.attempts (Factory.CreateLogger w opt)) "" = engineOf lg /\
  List.hd "" (Factory.attempts (Factory.CreateLogger w opt))
  = Engine (fst (Validate opt)).
Proof.
  destruct (Validate opt) as [opt1 [e|]] eqn:V; cbn.
  - unfold Factory.CreateLogger. rewrite V. discriminate.
  - rewrite (CreateLogger_validated w opt opt1 V).
    pose proof (Validate_ok_engine_known opt opt1 V) as Hk.
    destruct (Spec.construct w (Engine opt1) opt1) as [l1|e1] eqn:C1; cbn.
    + intros H; injection H as <-. split; [|reflexivity].
      symmetry. now apply (construct_engine w _ opt1).
    + intros C2. split; [|reflexivity].
      symmetry. apply (construct_engine w _ opt1); [apply alternate_known | exact C2].
Qed.

Lemma CreateLogger_returns_last_attempted_engine_witness :
  List.last
    (Factory.attempts
       (Factory.CreateLogger Samples.zapBroken
          (Samples.option_with "zap" "INFO" "" None))) ""
  = engineOf (SlogImpl
                (Slog.mkSlogLogger
                   (Slog.mkBackend Slog.LevelInfo "json" ["stdout"]
                      Samples.mapper [])
                   Core.InfoLevel Samples.mapper 0 false None)) /\
  List.hd ""
    (Factory.attempts
       (Factory.CreateLogger Samples.zapBroken
          (Samples.option_with "zap" "INFO" "" None)))
  = Engine (fst (Validate (Samples.option_with "zap" "INFO" "" None))).
Proof.
  apply (CreateLogger_returns_last_attempted_engine Samples.zapBroken).
  reflexivity.
Defined.

Lemma Validate_ok_level (opt1 : LogOption) :
  Validate opt1 = (opt1, None) ->
  exists lv, Core.ParseLevel (Level opt1) = Ok lv.
Proof.
  unfold Validate. destruct (Core.ParseLevel (Level opt1)) as [lv|e];
    [eauto | discriminate].
Qed.

(** X12: the fallback cannot help when the collector is the problem.
    If export is enabled over gRPC and the gRPC client cannot be
    created, both constructors fail the same way: CreateLogger attempts
    both engines and returns the dial error, wrapped three times. *)
Theorem grpc_dial_failure_defeats_fallback
    (w : World) (opt opt1 : LogOption) (o : OTLPOption) (e : error) :
  Validate opt = (opt1, None) ->
  OTLP opt1 = Some o ->
  IsOTLPEnabled opt1 = true ->
  Protocol o = "grpc" ->
  Otlp.grpcNewClient (net w) (Endpoint o) = Some e ->
  Factory.attempts (Factory.CreateLogger w opt)
  = [Engine opt1; Spec.alternate (Engine opt1)] /\
  Factory.returned (Factory.CreateLogger w opt)
  = Err (ErrWrap "failed to create OTLP provider"
           (ErrWrap "failed to create OTLP client"
              (ErrWrap "failed to create gRPC connection" e))).
Proof.
  intros V Ho Hen Hpr Hdial.
  pose proof (Validate_ok_idempotent opt opt1 V) as Hid.
  destruct (Validate_ok_level opt1 Hid) as [lv Hlv].
  assert (Hprov : Otlp.NewLoggerProvider (net w) (OTLP opt1)
                  = Err (ErrWrap "failed to create OTLP client"
                           (ErrWrap "failed to create gRPC connection" e))).
  { unfold Otlp.NewLoggerProvider, Otlp.NewOTLPClient.
    unfold IsOTLPEnabled in Hen. rewrite Ho in *. cbn.
    rewrite Hen. cbn. rewrite Hpr. cbn. now rewrite Hdial. }
  assert (Hboth : forall eng,
             Spec.construct w eng opt1
             = Err (ErrWrap "failed to create OTLP provider"
                      (ErrWrap "failed to create OTLP client"
                         (ErrWrap "failed to create gRPC connection" e)))).
  { intros eng. unfold Spec.construct, Factory.createZapLogger,
      Factory.createSlogLogger, Zap.NewZapLogger, Slog.NewSlogLogger.
    rewrite Hid, Hlv, Hen, Hprov. now destruct (String.eqb eng "zap"). }
  rewrite (CreateLogger_validated w opt opt1 V), !Hboth. split; reflexivity.
Qed.

Lemma grpc_dial_failure_defeats_fallback_witness :
  Factory.attempts (Factory.CreateLogger Cases.offline Cases.grpcOption)
  = ["zap"; "slog"] /\
  Factory.returned (Factory.CreateLogger Cases.offline Cases.grpcOption)
  = Err (ErrWrap "failed to create OTLP provider"
           (ErrWrap "failed to create OTLP client"
              (ErrWrap "failed to create gRPC connection"
                 (ErrMsg "dial failed")))).
Proof.
  apply (grpc_dial_failure_defeats_fallback Cases.offline Cases.grpcOption
           (fst (Validate Cases.grpcOption))
           (mkOTLPOption (Some true) "collector:4317" "grpc" (10 * Second) ∅ false));
    reflexivity.
Defined.

(** X13: the default logger can always be built, in every world: no
    file is opened and no collector is dialled for DefaultLogOption, so
    NewWithDefaults returns a slog logger at level INFO without export,
    Global never panics, and neither does a package-level logging
    function. *)
Theorem default_logger_always_constructs (w : World) :
  (exists l, Global.NewWithDefaults w = Ok (SlogImpl l) /\
             Slog.otlpProvider l = None /\
             Slog.level l = Core.InfoLevel /\
             Slog.hWriters (Slog.logger l) = ["stdout"]) /\
  (forall g, exists lg, Global.GetGlobal w g = (Some lg, Global.Returns lg)) /\
  (forall g lvl c, exists lg,
      Global.callGlobal w g lvl c = (Some lg, Global.Returns (call w lg lvl c))).
Proof.
  assert (H : exists l, Global.NewWithDefaults w = Ok (SlogImpl l) /\
                        Slog.otlpProvider l = None /\
                        Slog.level l = Core.InfoLevel /\
                        Slog.hWriters (Slog.logger l) = ["stdout"]).
  { eexists. repeat split. }
  split; [exact H|].
  destruct H as (l & Hl & _).
  assert (HG : forall g, exists lg,
               Global.GetGlobal w g = (Some lg, Global.Returns lg)).
  { intros [lg|]; unfold Global.GetGlobal; [now exists lg|].
    rewrite Hl. now eexists. }
  split; [exact HG|].
  intros g lvl c. destruct (HG g) as [lg Hg]. exists lg.
  unfold Global.callGlobal. now rewrite Hg.
Qed.

(** The handle is stable.  Once it has returned a logger, the package
    variable holds that logger, and every later call returns the same
    one without building anything; after SetGlobal of a logger, that
    logger is what Global returns. *)
Theorem Global_is_stable (w w' : World) (g g' : option Logger) (lg : Logger) :
  Global.GetGlobal w g = (g', Global.Returns lg) ->
  g' = Some lg /\
  Global.GetGlobal w' g' = (g', Global.Returns lg) /\
  Global.GetGlobal w' (Global.SetGlobal (Some lg) g) = (Some lg, Global.Returns lg).
Proof.
  unfold Global.GetGlobal, Global.SetGlobal.
  destruct g as [l0|].
  - intros H; injection H as <- <-. auto.
  - destruct (Global.NewWithDefaults w) as [l1|e]; [|discriminate].
    intros H; injection H as <- <-. auto.
Qed.

Lemma Global_is_stable_witness :
  Some (SlogImpl Cases.slogWarn) = Some (SlogImpl Cases.slogWarn) /\
  Global.GetGlobal Cases.offline (Some (SlogImpl Cases.slogWarn))
  = (Some (SlogImpl Cases.slogWarn), Global.Returns (SlogImpl Cases.slogWarn)) /\
  Global.GetGlobal Cases.offline
    (Global.SetGlobal (Some (SlogImpl Cases.slogWarn))
       (Some (SlogImpl Cases.slogWarn)))
  = (Some (SlogImpl Cases.slogWarn), Global.Returns (SlogImpl Cases.slogWarn)).
Proof.
  apply (Global_is_stable Samples.calm Cases.offline
           (Some (SlogImpl Cases.slogWarn))).
  reflexivity.
Defined.

End FactoryMore.

(** ** The export client *)

Section ClientFacts.

(** X14: exportHTTP returns nil exactly when the request was
    marshalled, built and sent and the response status lies in 200 to
    299; a status of 199 or 300 is an error. *)
Theorem exportHTTP_succeeds_iff (n : Otlp.Net) (c : Otlp.OTLPClient) :
  snd (Otlp.exportHTTP n c) = None <->
  Otlp.marshalFails n = false /\
  Otlp.newRequestFails n (Otlp.exportHTTP_url c) = false /\
  exists status, Otlp.httpDo n (Otlp.exportHTTP_url c) = Ok status /\
                 200 <= status < 300.
Proof.
  unfold Otlp.exportHTTP.
  destruct (Otlp.marshalFails n); cbn.
  { split; [discriminate | intros (H & _); discriminate]. }
  destruct (Otlp.newRequestFails n (Otlp.exportHTTP_url c)); cbn.
  { split; [discriminate | intros (_ & H & _); discriminate]. }
  destruct (Otlp.httpDo n (Otlp.exportHTTP_url c)) as [st|e]; cbn.
  - destruct ((st <? 200) || (300 <=? st)) eqn:E; cbn.
    + split; [discriminate|]. intros (_ & _ & s & Hs & Hr).
      injection Hs as <-. apply orb_true_iff in E as [E|E];
        [apply Z.ltb_lt in E | apply Z.leb_le in E]; lia.
    + split; [|reflexivity]. intros _. repeat split.
      apply orb_false_iff in E as [E1 E2].
      apply Z.ltb_ge in E1. apply Z.leb_gt in E2. exists st. split; [reflexivity | lia].
  - split; [discriminate|]. intros (_ & _ & s & Hs & _). discriminate.
Qed.

(** X15: NewLoggerProvider fails in two cases only: the setting is not
    enabled (nil, enabled flag not true, or empty endpoint), or the
    protocol is grpc and the gRPC client cannot be created.  With any
    other protocol nothing is dialled and the provider is always
    built. *)
Theorem NewLoggerProvider_error_cases
    (n : Otlp.Net) (opt : option OptionPkg.OTLPOption) :
  is_err (Otlp.NewLoggerProvider n opt) = true <->
  OptionPkg.IsEnabled opt = false \/
  exists o, opt = Some o /\ OptionPkg.Protocol o = "grpc" /\
            Otlp.grpcNewClient n (OptionPkg.Endpoint o) <> None.
Proof.
  unfold Otlp.NewLoggerProvider, Otlp.NewOTLPClient.
  destruct (OptionPkg.IsEnabled opt) eqn:En; cbn.
  - destruct opt as [o|]; [|discriminate En].
    destruct (String.eqb (OptionPkg.Protocol o) "grpc") eqn:P.
    + apply String.eqb_eq in P.
      destruct (Otlp.grpcNewClient n (OptionPkg.Endpoint o)) as [e|] eqn:D; cbn.
      * split; [|reflexivity]. intros _. right. exists o. rewrite D. now repeat split.
      * split; [discriminate|]. intros [H|(o' & Ho & _ & Hd)]; [discriminate|].
        injection Ho as <-. now rewrite D in Hd.
    + apply String.eqb_neq in P. cbn. split; [discriminate|].
      intros [H|(o' & Ho & Hp & _)]; [discriminate|]. injection Ho as <-. contradiction.
  - split; [now left | reflexivity].
Qed.

(** X16: a provider that NewLoggerProvider has built for protocol grpc
    always has its gRPC client, so SendLogRecord never answers "gRPC
    client not initialized": it makes exactly one export call to the
    configured endpoint and returns what the transport returns. *)
Theorem grpc_provider_reaches_transport
    (n n' : Otlp.Net) (o : OptionPkg.OTLPOption) (p : Otlp.LoggerProvider)
    (lvl : Core.Level) (msg : string) (a : gmap string any) :
  Otlp.NewLoggerProvider n (Some o) = Ok p ->
  OptionPkg.Protocol o = "grpc" ->
  Otlp.SendLogRecord n' p lvl msg a
  = ([EvSendLogRecord lvl msg a; EvGRPCExport (OptionPkg.Endpoint o)],
     Otlp.grpcExport n').
Proof.
  unfold Otlp.NewLoggerProvider, Otlp.NewOTLPClient. intros H Hp.
  destruct (negb _); [discriminate|]. rewrite Hp in H. cbn in H.
  destruct (Otlp.grpcNewClient n (OptionPkg.Endpoint o)); [discriminate|].
  injection H as <-.
  unfold Otlp.SendLogRecord, Otlp.Export, Otlp.exportGRPC. cbn.
  rewrite ?Hp. reflexivity.
Qed.

Lemma grpc_provider_reaches_transport_witness :
  Otlp.SendLogRecord (net Cases.offline) Samples.provider Core.ErrorLevel
    "boom" ∅
  = ([EvSendLogRecord Core.ErrorLevel "boom" ∅; EvGRPCExport "localhost:4317"],
     Some (ErrMsg "unavailable")).
Proof.
  apply (grpc_provider_reaches_transport (net Samples.calm) (net Cases.offline)
           (OptionPkg.mkOTLPOption (Some true) "localhost:4317" "grpc"
              (10 * OptionPkg.Second) ∅ false));
    reflexivity.
Defined.

(** X17: the record that createLogRecord builds starts with the three
    reserved attributes level, @timestamp and _msg, then has one
    attribute for every entry of the attribute map and nothing else;
    a user attribute named like a reserved one is added beside it, not
    merged. *)
Theorem createLogRecord_attributes
    (nowNano : Z) (nowText : string) (lvl : Core.Level) (msg : string)
    (attributes : gmap string any) :
  let r := OtlpRecord.createLogRecord nowNano nowText lvl msg attributes in
  List.map fst (List.firstn 3 (OtlpRecord.Attributes r))
  = ["level"; "@timestamp"; "_msg"] /\
  List.length (OtlpRecord.Attributes r) = (3 + size attributes)%nat /\
  (forall k v, In (k, v) (List.skipn 3 (OtlpRecord.Attributes r)) <->
               exists u, attributes !! k = Some u /\
                         v = OtlpRecord.convertValue u).
Proof.
  unfold OtlpRecord.createLogRecord.
  cbv zeta.
  cbn [OtlpRecord.Attributes app firstn skipn List.map fst List.length].
  split; [reflexivity|]. split.
  - now rewrite List.length_map, length_map_to_list.
  - intros k v.
    change (In (k, v)
              (List.map (fun kv : string * any =>
                           (fst kv, OtlpRecord.convertValue (snd kv)))
                 (map_to_list attributes)) <->
            exists u, attributes !! k = Some u /\ v = OtlpRecord.convertValue u).
    rewrite in_map_iff. split.
    + intros ([k' u] & E & Hin). cbn in E. injection E as <- <-.
      exists u. split; [|reflexivity].
      apply elem_of_map_to_list. now apply list_elem_of_In.
    + intros (u & Hu & ->). exists (k, u). split; [reflexivity|].
      apply list_elem_of_In. now apply elem_of_map_to_list.
Qed.

(** The severity mapping keeps the order: mapLevelToSeverityNumber keeps the order of the levels, so a
    collector that sorts by severity number sorts as the logger does. *)
Theorem severity_number_keeps_order (a b : Core.Level) :
  Core.rank a < Core.rank b <->
  OtlpRecord.mapLevelToSeverityNumber a < OtlpRecord.mapLevelToSeverityNumber b.
Proof. destruct a, b; cbn; lia. Qed.

End ClientFacts.

(** ** The adapters: what a call can and cannot do *)

Section CallFacts.

Import Fields.

Lemma SendLogRecord_shape (n : Otlp.Net) (p : Otlp.LoggerProvider)
    (lvl : Core.Level) (msg : string) (a : gmap string any) :
  exists evs,
    fst (Otlp.SendLogRecord n p lvl msg a) = EvSendLogRecord lvl msg a :: evs /\
    (evs = [] \/ (exists ep, evs = [EvGRPCExport ep]) \/
     (exists u h, evs = [EvHTTPPost u h])).
Proof.
  unfold Otlp.SendLogRecord, Otlp.Export, Otlp.exportGRPC, Otlp.exportHTTP.
  repeat match goal with
         | |- context [if ?b then _ else _] => destruct b
         | |- context [match Otlp.httpDo ?x ?y with _ => _ end] =>
             destruct (Otlp.httpDo x y)
         end; cbn; eexists; (split; [reflexivity|]); eauto.
Qed.

(** Opens the method called, the backends and the export path, and
    splits on everything the trace depends on. *)
Ltac open_call :=
  cbv beta iota delta [call];
  unfold Slog.Debug, Slog.Info, Slog.Warn, Slog.Error, Slog.Fatal,
    Slog.Debugf, Slog.Infof, Slog.Warnf, Slog.Errorf, Slog.Fatalf,
    Slog.Debugw, Slog.Infow, Slog.Warnw, Slog.Errorw, Slog.Fatalw,
    Zap.Debug, Zap.Info, Zap.Warn, Zap.Error, Zap.Fatal,
    Zap.Debugf, Zap.Infof, Zap.Warnf, Zap.Errorf, Zap.Fatalf,
    Zap.Debugw, Zap.Infow, Zap.Warnw, Zap.Errorw, Zap.Fatalw,
    Slog.sendToOTLP, Zap.sendToOTLP, Slog.log, Slog.Handle, Zap.log.

Ltac split_send :=
  repeat match goal with
         | |- context [fst (Otlp.SendLogRecord ?n ?p ?l ?m ?a)] =>
             let evs := fresh "evs" in
             let Hs := fresh "Hs" in
             let Hc := fresh "Hc" in
             destruct (SendLogRecord_shape n p l m a) as (evs & Hs & Hc);
             rewrite Hs; clear Hs;
             destruct Hc as [->|[[? ->]|[? [? ->]]]]
         end.

Ltac split_trace :=
  repeat match goal with
         | |- context [match Slog.otlpProvider ?l with _ => _ end] =>
             destruct (Slog.otlpProvider l)
         | |- context [match Zap.otlpProvider ?l with _ => _ end] =>
             destruct (Zap.otlpProvider l)
         end;
  split_send;
  repeat match goal with
         | |- context [if ?a <? ?b then _ else _] => destruct (a <? b)
         end.

(** X18: SetLevel changes the level field and nothing that any logging
    method reads: on both adapters every call behaves after SetLevel
    exactly as before it. *)
Theorem SetLevel_changes_no_call (w : World) (ls : Slog.SlogLogger)
    (lz : Zap.ZapLogger) (lv lvl : Core.Level) (c : convention) :
  call w (SlogImpl (Slog.SetLevel ls lv)) lvl c = call w (SlogImpl ls) lvl c /\
  call w (ZapImpl (Zap.SetLevel lz lv)) lvl c = call w (ZapImpl lz) lvl c.
Proof.
  split; destruct lvl, c; try reflexivity;
    cbv beta iota delta [call];
    unfold Zap.Debug, Zap.Info, Zap.Warn, Zap.Error, Zap.Fatal,
      Zap.Debugf, Zap.Infof, Zap.Warnf, Zap.Errorf, Zap.Fatalf,
      Zap.Debugw, Zap.Infow, Zap.Warnw, Zap.Errorw, Zap.Fatalw,
      Zap.withDynamicCallerSkip;
    destruct (hasGlobalCall w); reflexivity.
Qed.

(** X19: a fatal call, in any convention and on either adapter, ends
    with os.Exit(1), and nothing in the call comes after the exit. *)
Theorem Fatal_call_ends_with_exit (w : World) (l : Logger) (c : convention) :
  exists t, call w l Core.FatalLevel c = (t ++ [EvExit 1])%list /\
            existsb is_exit t = false.
Proof.
  destruct l as [l|l], c; open_call; split_trace; cbn;
    eexists; (split; [|shelve]);
    first [ reflexivity
          | apply (app_nil_l [EvExit 1])
          | match goal with
            | |- ?x :: ?r = _ => instantiate (1 := removelast (x :: r)); reflexivity
            end ].
  Unshelve. all: reflexivity.
Qed.

(** X20: a call below fatal never ends the process, on either adapter
    and whatever the export does. *)
Theorem only_Fatal_exits (w : World) (l : Logger) (lvl : Core.Level)
    (c : convention) :
  lvl <> Core.FatalLevel ->
  existsb is_exit (call w l lvl c) = false.
Proof.
  intros H. destruct l as [l|l], lvl, c; try congruence;
    open_call; split_trace; reflexivity.
Qed.

Lemma only_Fatal_exits_witness :
  existsb is_exit
    (call Samples.calm (SlogImpl Samples.slogInfo) Core.ErrorLevel
       (KeyValue "disk full" [AString "path"; AString "/var"])) = false.
Proof.
  apply (only_Fatal_exits Samples.calm (SlogImpl Samples.slogInfo)).
  discriminate.
Defined.

(** X21: one call writes at most one record locally and calls the
    Export Client at most once. *)
Theorem call_writes_and_exports_at_most_once (w : World) (l : Logger)
    (lvl : Core.Level) (c : convention) :
  (Relate.local_writes (call w l lvl c) <= 1)%nat /\
  (export_calls (call w l lvl c) <= 1)%nat.
Proof.
  destruct l as [l|l], lvl, c; open_call; split_trace; cbn; lia.
Qed.

(** *** Filtering, child loggers and attributes *)

Ltac split_provider :=
  repeat match goal with
         | |- context [match Slog.otlpProvider ?l with _ => _ end] =>
             destruct (Slog.otlpProvider l)
         | |- context [match Zap.otlpProvider ?l with _ => _ end] =>
             destruct (Zap.otlpProvider l)
         end;
  split_send.

Ltac split_levels :=
  repeat match goal with
         | |- context [if ?a <? ?b then _ else _] => destruct (a <? b)
         end.



(** X23: fields attached with With are written locally but never reach
    the Export Client: on both adapters a child logger hands the
    Export Client exactly the attribute maps its parent would. *)
Theorem With_fields_never_exported (w : World) (ls : Slog.SlogLogger)
    (lz : Zap.ZapLogger) (fields : list any) (lvl : Core.Level)
    (c : convention) :
  Spec.exported_maps (call w (SlogImpl (Slog.With ls fields)) lvl c)
  = Spec.exported_maps (call w (SlogImpl ls) lvl c) /\
  Spec.exported_maps (call w (ZapImpl (Zap.With lz fields)) lvl c)
  = Spec.exported_maps (call w (ZapImpl lz) lvl c).
Proof.
  split; destruct lvl, c; open_call;
    cbn [Slog.With Slog.otlpProvider Slog.mapper Zap.With Zap.otlpProvider
         Zap.mapper];
    split_provider; split_levels; reflexivity.
Qed.

Lemma withDynamicCallerSkip_fields (w : World) (l : Zap.ZapLogger) :
  Zap.zFields (Zap.logger (Zap.withDynamicCallerSkip w l))
  = Zap.zFields (Zap.logger l).
Proof. unfold Zap.withDynamicCallerSkip. now destruct (hasGlobalCall w). Qed.

(** The zap constructor tags its logger, and the child-logger methods
    keep the tag. *)
Lemma zap_engine_tag_kept (w : World) (opt : OptionPkg.LogOption)
    (l : Zap.ZapLogger) (kv : list any) (skip : Z) (lv : Core.Level) :
  (snd (Zap.NewZapLogger w opt) = Ok l -> Relate.zap_engine_tagged l) /\
  (Relate.zap_engine_tagged l ->
   Relate.zap_engine_tagged (Zap.With l kv) /\
   Relate.zap_engine_tagged (Zap.WithCtx l kv) /\
   Relate.zap_engine_tagged (Zap.WithCallerSkip l skip) /\
   Relate.zap_engine_tagged (Zap.SetLevel l lv)).
Proof.
  unfold Relate.zap_engine_tagged. split.
  - unfold Zap.NewZapLogger.
    destruct (OptionPkg.Validate opt) as [o [e|]]; cbn; [discriminate|].
    destruct (Core.ParseLevel _); cbn; [|discriminate].
    destruct (if OptionPkg.IsOTLPEnabled o then _ else _); cbn; [|discriminate].
    destruct (zapBuild _ _ _); cbn; [discriminate|].
    intros H. injection H as <-. now left.
  - intros H. cbn. repeat split; try exact H; apply in_or_app; now left.
Qed.

(** X24: every record written locally names the adapter that wrote it:
    a slog logger always adds engine = slog, and a zap logger that
    carries its engine field (as the constructor and the child-logger
    methods arrange) writes engine = zap. *)
Theorem every_record_names_its_engine (w : World) (l : Logger)
    (lvl : Core.Level) (c : convention) (eng ls m : string)
    (attrs : list (string * any)) :
  match l with
  | SlogImpl _ => True
  | ZapImpl z => Relate.zap_engine_tagged z
  end ->
  In (EvWrite eng ls m attrs) (call w l lvl c) ->
  eng = engineOf l /\ In ("engine", AString (engineOf l)) attrs.
Proof.
  intros Htag.
  assert (Hz : forall z x, Relate.zap_engine_tagged z ->
             In ("engine", AString "zap")
                (Zap.zFields (Zap.logger (Zap.withDynamicCallerSkip w z)) ++ x)).
  { intros z x Hx. rewrite withDynamicCallerSkip_fields.
    apply in_or_app. now left. }
  destruct l as [l|l], lvl, c; open_call; split_provider; split_levels; cbn;
    intros H;
    repeat match goal with
           | H : _ \/ _ |- _ => destruct H as [H|H]
           | H : False |- _ => contradiction
           | H : EvWrite _ _ _ _ = EvWrite _ _ _ _ |- _ =>
               injection H as <- <- <- <-
           | H : _ = EvWrite _ _ _ _ |- _ => discriminate H
           end;
    (split; [reflexivity|]);
    first [ apply Hz; exact Htag
          | apply in_or_app; right; now left ].
Qed.

Lemma every_record_names_its_engine_witness :
  "zap" = engineOf (ZapImpl Samples.zapInfo) /\
  In ("engine", AString (engineOf (ZapImpl Samples.zapInfo)))
     [("engine", AString "zap"); ("user", AString "ann")].
Proof.
  apply (every_record_names_its_engine Samples.calm (ZapImpl Samples.zapInfo)
           Core.WarnLevel (KeyValue "slow" [AString "user"; AString "ann"])
           "zap" "warn" "slow").
  - left. reflexivity.
  - cbn. left. reflexivity.
Defined.

(** Induction over argument lists two at a time, a last lone argument
    allowed. *)
Lemma pairs_rest_ind (P : list any -> Prop) :
  P [] ->
  (forall a, P [a]) ->
  (forall a b l, P l -> P (a :: b :: l)) ->
  forall l, P l.
Proof.
  intros H0 H1 H2. fix IH 1. intros [|a [|b l]].
  - exact H0.
  - apply H1.
  - apply H2, IH.
Qed.




(** X26: both adapters build one local attribute per key: for n
    arguments there are (n + 1) / 2 attributes, a last key without a
    value included; standardizeFields always hands zap an even number
    of arguments, so zap never sees a dangling key. *)
Theorem one_attribute_per_key (m : FieldMapper) (kvs : list any) :
  List.length (Slog.convertToSlogAttrs m kvs) = Nat.div2 (S (List.length kvs)) /\
  List.length (Zap.sweetenFields (Zap.standardizeFields m kvs))
  = Nat.div2 (S (List.length kvs)) /\
  Nat.even (List.length (Zap.standardizeFields m kvs)) = true.
Proof.
  revert kvs. apply pairs_rest_ind.
  - repeat split.
  - intros a. repeat split.
  - intros a b l (IH1 & IH2 & IH3).
    cbn [Slog.convertToSlogAttrs Zap.standardizeFields Zap.sweetenFields
         List.length].
    rewrite IH1, IH2. repeat split. exact IH3.
Qed.

End CallFacts.

(** ** Output sinks *)

Section Sinks.

Lemma openWriter_ok_iff (w : World) (path : string) :
  is_ok (Slog.openWriter w path) = true <->
  Relate.standard_stream path = true \/ openFile w path = None.
Proof.
  unfold Slog.openWriter, Relate.standard_stream.
  destruct (String.eqb (Core.to_lower path) "stdout"); cbn; [tauto|].
  destruct (String.eqb (Core.to_lower path) ""); cbn; [tauto|].
  destruct (String.eqb (Core.to_lower path) "stderr"); cbn; [tauto|].
  destruct (openFile w path); cbn; split; auto.
  intros [H|H]; discriminate.
Qed.

(** X27: createOutputWriters succeeds exactly when every path that is
    not a standard stream can be opened; stdout, stderr and the empty
    path, in any letter case, never touch the file system, and an empty
    list of paths always succeeds. *)
Theorem createOutputWriters_ok_iff (w : World) (paths : list string) :
  is_ok (Slog.createOutputWriters w paths) = true <->
  forall path, In path paths ->
    Relate.standard_stream path = true \/ openFile w path = None.
Proof.
  assert (H : forall ps, is_ok (Slog.openWriters w ps) = true <->
              forall path, In path ps ->
                Relate.standard_stream path = true \/ openFile w path = None).
  { induction ps as [|p ps IH]; cbn.
    - split; [intros _ ? [] | reflexivity].
    - pose proof (openWriter_ok_iff w p) as Hp.
      destruct (Slog.openWriter w p) as [f|e]; cbn in *.
      + destruct (Slog.openWriters w ps) as [fs|e]; cbn in *.
        * split; [|reflexivity]. intros _ path [<-|Hin].
          -- now apply Hp.
          -- now apply IH.
        * split; [discriminate|]. intros Hall.
          apply IH. intros path Hin. apply Hall. now right.
      + split; [discriminate|]. intros Hall. apply Hp, Hall. now left. }
  destruct paths as [|p ps]; [|apply H].
  cbn. split; [intros _ ? [] | reflexivity].
Qed.

Lemma openWriter_name (w : World) (path f : string) :
  Slog.openWriter w path = Ok f -> [f] = Zap.normalizeOutputPaths [path].
Proof.
  unfold Slog.openWriter, Zap.normalizeOutputPaths. cbn.
  destruct (String.eqb (Core.to_lower path) "stdout"
            || String.eqb (Core.to_lower path) ""); [congruence|].
  destruct (String.eqb (Core.to_lower path) "stderr"); [congruence|].
  destruct (openFile w path); congruence.
Qed.

(** X28: for a non-empty list of output paths the two engines use the
    same sinks: the writers that createOutputWriters opens for slog are
    the paths that createZapConfig gives zap, name by name. *)
Theorem engines_use_same_sinks (w : World) (paths ws : list string) :
  paths <> [] ->
  Slog.createOutputWriters w paths = Ok ws ->
  ws = Zap.configOutputPaths paths.
Proof.
  intros Hne H.
  assert (Hw : forall ps fs, Slog.openWriters w ps = Ok fs ->
                             fs = Zap.normalizeOutputPaths ps).
  { induction ps as [|p ps IH]; cbn; intros fs Hfs.
    - now injection Hfs as <-.
    - destruct (Slog.openWriter w p) as [f|e] eqn:Ef; cbn in Hfs; [|discriminate].
      destruct (Slog.openWriters w ps) as [fs'|e] eqn:Efs; cbn in Hfs; [|discriminate].
      injection Hfs as <-.
      apply openWriter_name in Ef. cbn in Ef. injection Ef as ->.
      now rewrite (IH fs' eq_refl). }
  destruct paths as [|p ps]; [contradiction|].
  now apply Hw.
Qed.

Lemma engines_use_same_sinks_witness :
  ["stdout"; "stderr"] = Zap.configOutputPaths ["STDOUT"; "stderr"].
Proof.
  apply (engines_use_same_sinks Cases.offline ["STDOUT"; "stderr"]).
  - discriminate.
  - reflexivity.
Defined.

End Sinks.

(** ** The exported attribute map *)

Section ExportedMap.

Import Fields.




Lemma otlpAttributes_snoc (m : FieldMapper) (k v : any) (kvs : list any) :
  Nat.even (List.length kvs) = true ->
  forall acc,
    Slog.otlpAttributes m (kvs ++ [k; v]) acc
    = <[getStandardFieldName m (anyToString k) := v]>
        (Slog.otlpAttributes m kvs acc).
Proof.
  revert kvs.
  apply (pairs_ind (fun kvs => forall acc,
           Slog.otlpAttributes m (kvs ++ [k; v]) acc
           = <[getStandardFieldName m (anyToString k) := v]>
               (Slog.otlpAttributes m kvs acc))).
  - reflexivity.
  - intros a b l IH acc. cbn [app Slog.otlpAttributes]. apply IH.
Qed.

(** X30: in the exported attribute map the last value given for a key
    wins: after any complete pairs, a further pair k, v makes the map
    hold v under the standard name of k, whatever was given for that
    name before, and leaves every other name as it was. *)
Theorem exported_attribute_last_wins (m : FieldMapper) (k v : any)
    (kvs : list any) (other : string) :
  Nat.even (List.length kvs) = true ->
  other <> getStandardFieldName m (anyToString k) ->
  Slog.otlpAttributes m (kvs ++ [k; v]) ∅
    !! getStandardFieldName m (anyToString k) = Some v /\
  Slog.otlpAttributes m (kvs ++ [k; v]) ∅ !! other
  = Slog.otlpAttributes m kvs ∅ !! other.
Proof.
  intros Hev Hne. rewrite (otlpAttributes_snoc m k v kvs Hev ∅). split.
  - apply lookup_insert_eq.
  - now apply lookup_insert_ne.
Qed.

Lemma exported_attribute_last_wins_witness :
  Slog.otlpAttributes Samples.mapper
    ([AString "user"; AString "ann"] ++ [AString "user"; AString "bob"]) ∅
    !! getStandardFieldName Samples.mapper (anyToString (AString "user"))
  = Some (AString "bob") /\
  Slog.otlpAttributes Samples.mapper
    ([AString "user"; AString "ann"] ++ [AString "user"; AString "bob"]) ∅
    !! "host"
  = Slog.otlpAttributes Samples.mapper [AString "user"; AString "ann"] ∅
      !! "host".
Proof.
  apply (exported_attribute_last_wins Samples.mapper (AString "user")
           (AString "bob") [AString "user"; AString "ann"] "host").
  - reflexivity.
  - discriminate.
Defined.

End ExportedMap.
